(** * Artemis Firmware Uploader (AFU.py): a shallow embedding

    The widget of [AFU.py] is modelled by explicit state passing: every
    slot of [RemoteWidget] becomes a function from the state of the GUI
    to its next state.  What the slots read from the outside (the serial
    ports enumerated by [comports()], whether a path can be opened) is an
    argument; what they do to the outside (opening and closing the
    firmware file, starting the uploader process) is appended to a trace
    of events. *)

From Stdlib Require Import ZArith Ascii.
From Stdlib.Strings Require Import Byte.
From stdpp Require Import base gmap strings list pretty.
From Equations Require Import Equations.

Local Open Scope Z_scope.

(** ** Python strings

    A Python [str] is modelled by a [string]: the text is taken in its
    UTF-8 encoding.  The three tokens, ['#'] and ['.'] are ASCII, and an
    ASCII needle occurs in a text exactly where its byte occurs in the
    encoding, so [in] and [count] agree on both views. *)
Module PyStr.

(** [s.startswith(p)] *)
Fixpoint startswith (p s : string) : bool :=
  match p, s with
  | EmptyString, _ => true
  | String _ _, EmptyString => false
  | String a p', String b s' => if Ascii.eqb a b then startswith p' s' else false
  end.

(** [sub in s]: [sub] starts at some position of [s]. *)
Fixpoint str_in (sub s : string) : bool :=
  startswith sub s ||
  match s with
  | EmptyString => false
  | String _ s' => str_in sub s'
  end.

(** [s.count(c)] for a needle of one character. *)
Fixpoint count (c : ascii) (s : string) : nat :=
  match s with
  | EmptyString => O
  | String b s' => (if Ascii.eqb c b then 1 else 0) + count c s'
  end.

(** The text made of [n] full stops. *)
Fixpoint dots (n : nat) : string :=
  match n with
  | O => ""
  | S n' => "." +:+ dots n'
  end.

(** [sub] occurs in [s]: the meaning of Python's [in] on strings. *)
Definition contains (sub s : string) : Prop :=
  ∃ pre post : string, s = pre +:+ sub +:+ post.

End PyStr.
Import PyStr.

(** The double quote, as a text of one character. *)
Definition dquote : string := String "034"%char "".

(** ** Qt values and widgets *)

(** What a [QVariant] holds in this program: nothing ([None] in Python),
    a [str] or an [int]. *)
Inductive QVariant : Type :=
| VNone : QVariant
| VStr (s : string) : QVariant
| VInt (z : Z) : QVariant.

Global Instance QVariant_eq_dec : EqDecision QVariant.
Proof. solve_decision. Defined.

(** Python's [str(v)]. *)
Definition py_str (v : QVariant) : string :=
  match v with
  | VNone => "None"
  | VStr s => s
  | VInt z => pretty z
  end.

(** A [QComboBox]: its items (display text, item data) and the current
    index, [-1] when no item is current. *)
Record QComboBox : Type := mkCombo {
  items : list (string * QVariant);
  currentIndex : Z
}.

Module Combo.

Definition empty : QComboBox := mkCombo [] (-1).

(** [clear()]: no item is left and none is current. *)
Definition clear (cb : QComboBox) : QComboBox := mkCombo [] (-1).

(** [addItem(text, data)]: the item goes to the end; the first item
    added to an empty box becomes the current one. *)
Definition addItem (text : string) (data : QVariant) (cb : QComboBox) : QComboBox :=
  mkCombo (items cb ++ [(text, data)])
          (match items cb with
           | [] => 0
           | _ :: _ => currentIndex cb
           end).

(** Index of the first item of [l] whose data is [data], counted from
    [i]; [-1] when there is none. *)
Fixpoint find_from (data : QVariant) (i : Z) (l : list (string * QVariant)) : Z :=
  match l with
  | [] => -1
  | (_, d) :: l' => if decide (d = data) then i else find_from data (i + 1) l'
  end.

(** [findData(data)] *)
Definition findData (data : QVariant) (cb : QComboBox) : Z :=
  find_from data 0 (items cb).

(** [setCurrentIndex(index)] *)
Definition setCurrentIndex (index : Z) (cb : QComboBox) : QComboBox :=
  mkCombo (items cb) index.

(** [currentData()]: the data of the current item, nothing when no
    item is current. *)
Definition currentData (cb : QComboBox) : QVariant :=
  if decide (0 ≤ currentIndex cb) then
    match items cb !! Z.to_nat (currentIndex cb) with
    | Some (_, d) => d
    | None => VNone
    end
  else VNone.

End Combo.

(** A serial port as [comports()] reports it. *)
Record ListPortInfo : Type := mkPort {
  description : string;
  device : string
}.

(** A [QProcess] that was started with the command line [command]. *)
Record QProcess : Type := mkProcess {
  command : string
}.

(** What a slot does to the world outside the widget. *)
Inductive Event : Type :=
| EvOpen (path : string)     (* open(path) succeeded: a file handle is held *)
| EvClose (path : string)    (* f.close() on that handle *)
| EvStart (cmd : string).    (* QProcess.start(cmd) *)

Global Instance Event_eq_dec : EqDecision Event.
Proof. solve_decision. Defined.

(** What the slots read from the world outside the widget. *)
Record Env : Type := mkEnv {
  comports : list ListPortInfo;   (* the ports enumerated at that moment *)
  can_open : string → bool        (* whether open(path) succeeds *)
}.

(** The state of the program: the widget's fields that the slots use,
    the module-level [progressCount] and the events so far. *)
Record GUI : Type := mkGUI {
  fileLocation_lineedit : string;
  port_combobox : QComboBox;
  baud_combobox : QComboBox;
  status : string;
  process : option QProcess;
  progressCount : Z;
  events : list Event
}.

Definition set_fileLocation (t : string) (g : GUI) : GUI :=
  mkGUI t (port_combobox g) (baud_combobox g) (status g) (process g)
        (progressCount g) (events g).

Definition set_port_combobox (cb : QComboBox) (g : GUI) : GUI :=
  mkGUI (fileLocation_lineedit g) cb (baud_combobox g) (status g) (process g)
        (progressCount g) (events g).

Definition set_baud_combobox (cb : QComboBox) (g : GUI) : GUI :=
  mkGUI (fileLocation_lineedit g) (port_combobox g) cb (status g) (process g)
        (progressCount g) (events g).

(** [self.status.setText(t)] *)
Definition setText (t : string) (g : GUI) : GUI :=
  mkGUI (fileLocation_lineedit g) (port_combobox g) (baud_combobox g) t (process g)
        (progressCount g) (events g).

Definition set_process (p : QProcess) (g : GUI) : GUI :=
  mkGUI (fileLocation_lineedit g) (port_combobox g) (baud_combobox g) (status g) (Some p)
        (progressCount g) (events g).

Definition set_progressCount (n : Z) (g : GUI) : GUI :=
  mkGUI (fileLocation_lineedit g) (port_combobox g) (baud_combobox g) (status g) (process g)
        n (events g).

Definition emit (e : Event) (g : GUI) : GUI :=
  mkGUI (fileLocation_lineedit g) (port_combobox g) (baud_combobox g) (status g) (process g)
        (progressCount g) (events g ++ [e]).

(** ** The slots of [RemoteWidget] *)

(** The property [port]. *)
Definition port (g : GUI) : QVariant := Combo.currentData (port_combobox g).

(** The property [baudRate]. *)
Definition baudRate (g : GUI) : QVariant := Combo.currentData (baud_combobox g).

(** [onReadyReadStandardOutput], on the decoded text [result] that the
    process wrote.  [int(progressCount / 3)] truncates towards zero, as
    [Z.quot] does, and [range] of a negative number is empty. *)
Definition onReadyReadStandardOutput (result : string) (g : GUI) : GUI :=
  if str_in "complete" result then setText "Complete" g
  else if str_in "failed" result then setText "Upload Failed" g
  else if str_in "open" result then setText "Port In Use / Please Close" g
  else
    let g1 := set_progressCount (progressCount g + Z.of_nat (count "#" result)) g in
    Nat.iter (Z.to_nat (progressCount g1 ÷ 3))
             (λ g', setText (status g' +:+ ".") g') g1.

(** [onReadyReadStandardError], on the decoded text [error]. *)
Definition onReadyReadStandardError (error : string) (g : GUI) : GUI :=
  setText error g.

(** [gen_serial_ports()]: the pairs (description, device), in the order
    of [comports()]. *)
Definition gen_serial_ports (env : Env) : list (string * string) :=
  map (λ p, (description p, device p)) (comports env).

(** [update_com_ports]: the loop adds one item per pair to the cleared
    box. *)
Definition update_com_ports (env : Env) (g : GUI) : GUI :=
  set_port_combobox
    (foldl (λ cb nd, Combo.addItem (fst nd) (VStr (snd nd)) cb)
           (Combo.clear (port_combobox g))
           (gen_serial_ports env))
    g.

(** [update_baud_rates] *)
Definition update_baud_rates (g : GUI) : GUI :=
  let cb1 := Combo.addItem "921600" (VInt 921600) (baud_combobox g) in
  let cb2 := Combo.addItem "460800" (VInt 460800) cb1 in
  let cb3 := Combo.addItem "115200" (VInt 115200) cb2 in
  set_baud_combobox cb3 g.

(** [on_refresh_btn_pressed] *)
Definition on_refresh_btn_pressed (env : Env) (g : GUI) : GUI :=
  update_com_ports env g.

(** The loop of [on_upload_btn_pressed] over the enumerated ports:
    [portAvailable] becomes [True] at a port whose device is the
    selected one.  A device is a [str], so it never equals [None]. *)
Definition portAvailable (ports : list ListPortInfo) (selected : QVariant) : bool :=
  foldl (λ avail p, if decide (VStr (device p) = selected) then true else avail)
        false ports.

(** [on_upload_btn_pressed].  Whatever [open] raises, the [finally]
    clause runs with [fileExists] still [False] and returns from there.
    The command line is put together from the left, as [+] does. *)
Definition on_upload_btn_pressed (env : Env) (g : GUI) : GUI :=
  if negb (portAvailable (comports env) (port g)) then
    setText "Port No Longer Available" g
  else
    let path := fileLocation_lineedit g in
    if can_open env path then
      let g1 := emit (EvOpen path) g in
      let g2 := emit (EvClose path) g1 in
      let g3 := set_progressCount 0 g2 in
      let g4 := setText "Uploading " g3 in
      let cmd :=
        ((((("artemis_svl.exe " +:+ py_str (port g4)) +:+
            (" -f" +:+ dquote)) +:+ fileLocation_lineedit g4) +:+ dquote) +:+
          " -b") +:+ py_str (baudRate g4) in
      emit (EvStart cmd) (set_process (mkProcess cmd) g4)
    else
      setText "File Not Found" g.

(** ** Settings *)

Definition SETTING_PORT_NAME : string := "port_name".
Definition SETTING_FILE_LOCATION : string := "message".
Definition SETTING_BAUD_RATE : string := "921600".

(** [QSettings] as a store from keys to values that gives back what was
    put in it. *)
Abbreviation QSettings := (gmap string QVariant).

(** [settings.value(key)]: nothing when the key is absent. *)
Definition value (key : string) (settings : QSettings) : QVariant :=
  default VNone (settings !! key).

(** [settings.setValue(key, v)] *)
Definition setValue (key : string) (v : QVariant) (settings : QSettings) : QSettings :=
  <[key := v]> settings.

(** The part of [_load_settings] that is the same for both boxes. *)
Definition restore_selection (saved : QVariant) (cb : QComboBox) : QComboBox :=
  if decide (saved = VNone) then cb
  else
    let index := Combo.findData saved cb in
    if decide (index > -1) then Combo.setCurrentIndex index cb else cb.

(** [_load_settings].  [QLineEdit.setText] takes a [str]: with an [int]
    under the key of the file location it raises, which is [None] here. *)
Definition _load_settings (settings : QSettings) (g : GUI) : option GUI :=
  let port_name := value SETTING_PORT_NAME settings in
  let g1 := set_port_combobox (restore_selection port_name (port_combobox g)) g in
  let msg := value SETTING_FILE_LOCATION settings in
  g2 ← match msg with
       | VNone => Some g1
       | VStr s => Some (set_fileLocation s g1)
       | VInt _ => None
       end;
  let baud := value SETTING_BAUD_RATE settings in
  Some (set_baud_combobox (restore_selection baud (baud_combobox g2)) g2).

(** [_save_settings] *)
Definition _save_settings (g : GUI) (settings : QSettings) : QSettings :=
  let s1 := setValue SETTING_PORT_NAME (port g) settings in
  let s2 := setValue SETTING_FILE_LOCATION (VStr (fileLocation_lineedit g)) s1 in
  setValue SETTING_BAUD_RATE (baudRate g) s2.

(** [closeEvent]: the settings are saved, then the event is accepted. *)
Definition closeEvent (g : GUI) (settings : QSettings) : QSettings :=
  _save_settings g settings.

(** [RemoteWidget.__init__], with the module-level [progressCount = 1]. *)
Definition init (env : Env) (settings : QSettings) : option GUI :=
  let g0 := mkGUI "" Combo.empty Combo.empty " " None 1 [] in
  _load_settings settings (update_baud_rates (update_com_ports env g0)).

(** A session of output: the chunks arrive one after the other. *)
Definition read_chunks (chunks : list string) (g : GUI) : GUI :=
  foldl (λ g' result, onReadyReadStandardOutput result g') g chunks.

(** ** The parts of the uploader that the GUI only starts *)

(** Ceiling of [L / P] on natural numbers. *)
Definition ceil_div (L P : nat) : nat := ((L + P - 1) / P)%nat.

Module Segmenter.
Section Segment.

(** Modelled from the spec: the checksum strategy of the device contract,
    which the spec leaves open. *)
Context {C : Type} (checksum : list byte → C).

(** Modelled from the spec: a Page of the data model, missing with the
    Image Segmenter: its index, its payload and its checksum. *)
Record Page : Type := mkPage {
  index : nat;
  payload : list byte;
  page_checksum : C
}.

(** Modelled from the spec: the zero padding of a short final page,
    missing with the Image Segmenter. *)
Definition zero_fill (pageSize : nat) (slice : list byte) : list byte :=
  slice ++ replicate (pageSize - length slice) x00.

(** Modelled from the spec: the Image Segmenter of the uploader
    executable is missing.  The pages are the consecutive slices of
    [pageSize] bytes of the image, numbered from [i], the last one
    zero-filled; an empty image has no page, and no page can be cut with
    a page size of zero. *)
Equations? segment_from (pageSize i : nat) (image : list byte) : list Page
  by wf (length image) lt :=
segment_from 0 i image := [];
segment_from (S p) i [] := [];
segment_from (S p) i (b :: rest) :=
  let bytes := zero_fill (S p) (take (S p) (b :: rest)) in
  mkPage i bytes (checksum bytes) :: segment_from (S p) (S i) (drop (S p) (b :: rest)).
Proof. simpl. rewrite length_drop. lia. Qed.

(** Modelled from the spec: [segment(image, pageSize)], missing with the
    Image Segmenter; the first page has index 0. *)
Definition segment (image : list byte) (pageSize : nat) : list Page :=
  segment_from pageSize 0 image.

End Segment.
End Segmenter.

Module Protocol.

(** Modelled from the spec: what the missing protocol state machine gets
    back after a page frame was written, an acknowledgement carrying a
    page index, or no valid one within the timeout. *)
Inductive Ack : Type :=
| AckIndex (i : nat)
| NoAck.

(** Modelled from the spec: the fatal kinds of the error taxonomy of the
    missing protocol engine. *)
Inductive ErrorKind : Type :=
| PortUnavailable
| PortClosed
| HandshakeTimeout
| PageTransferFailed (index : nat)
| VerificationMismatch
| SessionBusy
| Cancelled.

(** Modelled from the spec: the states of the missing protocol state
    machine. *)
Inductive SessionState : Type :=
| Idle
| Handshaking
| SendingHeader
| TransferringPages
| Verifying
| Finalizing
| Complete
| Failed (e : ErrorKind).

Section Transfer.

(** The number of pages of the image, the configured retry limit, and the
    device: its answer to the [k]-th page frame written in the session. *)
Variables (pageCount retryLimit : nat) (device_ack : nat → Ack).

(** Modelled from the spec: the test of the missing page loop on an
    answer, whether it acknowledges the page that was sent. *)
Definition acked (a : Ack) (index : nat) : bool :=
  match a with
  | AckIndex j => bool_decide (j = index)
  | NoAck => false
  end.

(** Modelled from the spec: the exchange for one page in the
    TransferringPages loop of the missing protocol state machine.  The
    page is sent and the answer awaited; on a mismatched or missing
    acknowledgement the same page is sent again while retries are left.
    [sent] is the log of the page indices written so far; the result
    tells whether the page was acknowledged. *)
Fixpoint send_page (index retries_left : nat) (sent : list nat) : list nat * bool :=
  let sent' := sent ++ [index] in
  if acked (device_ack (length sent)) index then (sent', true)
  else
    match retries_left with
    | O => (sent', false)
    | S r => send_page index r sent'
    end.

(** Modelled from the spec: the TransferringPages loop of the missing
    protocol state machine, with [remaining] pages to go from [index]
    on.  Once all pages are acknowledged the session is in Verifying; a
    page that exceeds the retry limit ends it in Failed. *)
Fixpoint transfer_pages (remaining index : nat) (sent : list nat) : list nat * SessionState :=
  match remaining with
  | O => (sent, Verifying)
  | S rem =>
      let '(sent', ok) := send_page index retryLimit sent in
      if ok then transfer_pages rem (S index) sent'
      else (sent', Failed (PageTransferFailed index))
  end.

(** Modelled from the spec: the page loop of a whole session, missing
    with the protocol state machine. *)
Definition transfer : list nat * SessionState :=
  transfer_pages pageCount 0%nat [].

(** The invariant of the data model on a log of page indices: the log
    starts with page 0, and a send of page [a] is followed by [a] again
    when the answer to it did not acknowledge [a], and by [a + 1] when it
    did. *)
Definition in_page_order (sent : list nat) : Prop :=
  (∀ a : nat, sent !! 0%nat = Some a → a = 0%nat) ∧
  (∀ k a b : nat,
     sent !! k = Some a → sent !! S k = Some b →
     b = a ∧ acked (device_ack k) a = false ∨
     b = S a ∧ acked (device_ack k) a = true).

(** The log is in page order and [index] is the page to send next. *)
Definition may_send (sent : list nat) (index : nat) : Prop :=
  in_page_order sent ∧
  match last sent with
  | None => index = 0%nat
  | Some a =>
      index = a ∧ acked (device_ack (length sent - 1)) a = false ∨
      index = S a ∧ acked (device_ack (length sent - 1)) a = true
  end.

End Transfer.
End Protocol.

(** A device that acknowledges page 0, answers the first send of page 1
    with the wrong index and the second in time, acknowledges page 2 and
    is silent from then on. *)
Definition example_device (k : nat) : Protocol.Ack :=
  match k with
  | 0%nat => Protocol.AckIndex 0
  | 1%nat => Protocol.AckIndex 0
  | 2%nat => Protocol.AckIndex 1
  | 3%nat => Protocol.AckIndex 2
  | _ => Protocol.NoAck
  end.

(** ** The rest of the widget and its event loop *)

(** [on_browse_btn_pressed], on the file name that the dialog returns:
    the empty text when the dialog was dismissed, which [if fileName:]
    takes for false. *)
Definition on_browse_btn_pressed (fileName : string) (g : GUI) : GUI :=
  if decide (fileName = "") then g else set_fileLocation fileName g.

(** The user picks the item [i] of a box; an index that the box does not
    have cannot be picked. *)
Definition choose (i : nat) (cb : QComboBox) : QComboBox :=
  if decide (i < length (items cb))%nat
  then Combo.setCurrentIndex (Z.of_nat i) cb
  else cb.

(** What can happen to the widget once it is shown: the signals that
    [__init__] and [on_upload_btn_pressed] connect to slots, and the
    user's choice in the two boxes.  The line edit is disabled, so its
    [returnPressed] never fires. *)
Inductive Action : Type :=
| PressUpload (env : Env)
| PressRefresh (env : Env)
| PressBrowse (fileName : string)
| ChoosePort (i : nat)
| ChooseBaud (i : nat)
| ReadyReadStandardOutput (result : string)
| ReadyReadStandardError (error : string).

(** The slot that runs on an action.  The two [readyRead] signals belong
    to the process object, so they only come once one was created. *)
Definition dispatch (a : Action) (g : GUI) : GUI :=
  match a with
  | PressUpload env => on_upload_btn_pressed env g
  | PressRefresh env => on_refresh_btn_pressed env g
  | PressBrowse fileName => on_browse_btn_pressed fileName g
  | ChoosePort i => set_port_combobox (choose i (port_combobox g)) g
  | ChooseBaud i => set_baud_combobox (choose i (baud_combobox g)) g
  | ReadyReadStandardOutput result =>
      if process g is Some _ then onReadyReadStandardOutput result g else g
  | ReadyReadStandardError error =>
      if process g is Some _ then onReadyReadStandardError error g else g
  end.

(** The widget after a sequence of actions. *)
Definition run (actions : list Action) (g : GUI) : GUI :=
  foldl (λ g' a, dispatch a g') g actions.

(** The three items that [update_baud_rates] adds. *)
Definition baud_items : list (string * QVariant) :=
  [("921600", VInt 921600); ("460800", VInt 460800); ("115200", VInt 115200)].

(** The trace of a list of uploads, each given by the path of its file
    and its command line: the file is opened and closed, then the
    process is started. *)
Fixpoint uploads_trace (uploads : list (string * string)) : list Event :=
  match uploads with
  | [] => []
  | (path, cmd) :: rest =>
      EvOpen path :: EvClose path :: EvStart cmd :: uploads_trace rest
  end.

(** A command line as the widget builds it, for a file and one of the
    three baud rates. *)
Definition well_formed_command (path cmd : string) : Prop :=
  ∃ dev baud : string,
    baud ∈ ["921600"; "460800"; "115200"] ∧
    cmd = "artemis_svl.exe " +:+ dev +:+ " -f" +:+ dquote +:+ path +:+
          dquote +:+ " -b" +:+ baud.

(** What holds of the widget from its construction on, whatever
    happens to it: the progress counter is not negative; the baud box
    holds the three rates with one of them current; the events are the
    trace of a list of uploads with well-formed command lines, and the
    process held is that of the last upload. *)
Definition widget_invariant (g : GUI) : Prop :=
  0 ≤ progressCount g ∧
  items (baud_combobox g) = baud_items ∧
  0 ≤ currentIndex (baud_combobox g) < 3 ∧
  ∃ uploads : list (string * string),
    events g = uploads_trace uploads ∧
    process g = (λ u, mkProcess u.2) <$> last uploads ∧
    Forall (λ u, well_formed_command u.1 u.2) uploads.

(** A chunk with none of the three tokens. *)
Definition token_free (result : string) : bool :=
  negb (str_in "complete" result) && negb (str_in "failed" result) &&
  negb (str_in "open" result).

(** The chunks put end to end. *)
Definition join_chunks (chunks : list string) : string :=
  foldr String.append "" chunks.

(** ** A run of the program used in the examples

    Two ports are enumerated, the firmware file exists, and the settings
    store is empty at startup. *)
Definition example_env : Env :=
  mkEnv [mkPort "USB-SERIAL CH340 (COM3)" "COM3"; mkPort "Bluetooth link (COM7)" "COM7"]
        (λ path, bool_decide (path = "C:/fw/app.bin")).

Definition example_gui : GUI :=
  mkGUI "C:/fw/app.bin"
        (mkCombo [("USB-SERIAL CH340 (COM3)", VStr "COM3");
                  ("Bluetooth link (COM7)", VStr "COM7")] 0)
        (mkCombo [("921600", VInt 921600); ("460800", VInt 460800);
                  ("115200", VInt 115200)] 0)
        " " None 1 [].

(** The same widget with the second port and the third baud rate
    selected, as it may be when the window is closed. *)
Definition example_gui_closing : GUI :=
  set_port_combobox (Combo.setCurrentIndex 1 (port_combobox example_gui))
    (set_baud_combobox (Combo.setCurrentIndex 2 (baud_combobox example_gui))
       example_gui).

(** The widget at startup, before the settings are loaded. *)
Definition example_gui_startup : GUI :=
  update_baud_rates
    (update_com_ports example_env (mkGUI "" Combo.empty Combo.empty " " None 1 [])).

(** A store as a closed window leaves it. *)
Definition example_settings : QSettings :=
  <[SETTING_BAUD_RATE := VInt 115200]>
    (<[SETTING_FILE_LOCATION := VStr "C:/fw/app.bin"]>
       (<[SETTING_PORT_NAME := VStr "COM7"]> ∅)).

(** * Properties *)

(** ** Texts *)

Lemma append_cons (a : ascii) (s t : string) :
  String a s +:+ t = String a (s +:+ t).
Proof. reflexivity. Qed.

Lemma append_assoc (a b c : string) : (a +:+ b) +:+ c = a +:+ b +:+ c.
Proof.
  induction a as [|x a IH]; [done |].
  rewrite !append_cons. by f_equal.
Qed.

Lemma append_nil_r (a : string) : a +:+ "" = a.
Proof.
  induction a as [|x a IH]; [done |].
  rewrite append_cons. by f_equal.
Qed.

Lemma startswith_spec (p s : string) :
  startswith p s = true ↔ ∃ post : string, s = p +:+ post.
Proof.
  revert s. induction p as [|a p IH]; intros s; simpl.
  - split; [intros _; by exists s | done].
  - destruct s as [|b s].
    + split; [done | intros [post H]; discriminate H].
    + destruct (Ascii.eqb_spec a b) as [->|Hne].
      * rewrite IH. split; intros [post H]; exists post.
        -- by rewrite H.
        -- rewrite append_cons in H. by injection H.
      * split; [done |].
        intros [post H]. rewrite append_cons in H.
        injection H; intros _ E. by destruct Hne.
Qed.

Lemma str_in_contains (sub s : string) :
  str_in sub s = true ↔ contains sub s.
Proof.
  unfold contains. induction s as [|c s IH].
  - cbn [str_in]. rewrite orb_false_r, startswith_spec. split.
    + intros [post H]. by exists "", post.
    + intros [[|a pre] [post H]]; [by exists post | discriminate H].
  - cbn [str_in]. rewrite orb_true_iff, startswith_spec, IH. split.
    + intros [[post H] | (pre & post & H)].
      * by exists "", post.
      * exists (String c pre), post. rewrite append_cons. by rewrite H.
    + intros ([|a pre] & post & H).
      * left. by exists post.
      * right. exists pre, post. rewrite append_cons in H. by injection H.
Qed.

Lemma not_str_in_contains (sub s : string) :
  str_in sub s = false ↔ ¬ contains sub s.
Proof. rewrite <- str_in_contains. by destruct (str_in sub s). Qed.

Lemma dots_snoc (n : nat) : dots n +:+ "." = dots (S n).
Proof.
  induction n as [|n IH]; [done |].
  cbn [dots]. rewrite append_assoc. by f_equal.
Qed.

(** The loop over [range(n)] that adds a full stop to the status each
    time adds [n] full stops and touches nothing else. *)
Lemma iter_dots (n : nat) (g : GUI) :
  Nat.iter n (λ g', setText (status g' +:+ ".") g') g =
  setText (status g +:+ dots n) g.
Proof.
  induction n as [|n IH].
  - cbn [dots]. rewrite append_nil_r. by destruct g.
  - rewrite <- dots_snoc, Nat.iter_succ, IH.
    unfold setText. cbn [status fileLocation_lineedit port_combobox
      baud_combobox process progressCount events].
    by rewrite append_assoc.
Qed.

(** ** The output parser *)

(** Turns the hypotheses about occurrences into the tests the code runs. *)
Ltac occurs_to_bool :=
  repeat match goal with
         | H : contains _ _ |- _ => apply str_in_contains in H
         | H : ¬ contains _ _ |- _ => apply not_str_in_contains in H
         end.

(** The fourth branch of the parser, in closed form. *)
Lemma parser_progress_branch (result : string) (g : GUI) :
  str_in "complete" result = false →
  str_in "failed" result = false →
  str_in "open" result = false →
  onReadyReadStandardOutput result g =
    let n := progressCount g + Z.of_nat (count "#" result) in
    setText (status g +:+ dots (Z.to_nat (n ÷ 3))) (set_progressCount n g).
Proof.
  intros H1 H2 H3. unfold onReadyReadStandardOutput.
  rewrite H1, H2, H3. cbv zeta. by rewrite iter_dots.
Qed.

(** C1: for every chunk of output the parser takes exactly one of four
    ways, decided in this order: the chunk contains "complete" and the
    status becomes "Complete"; else it contains "failed" and the status
    becomes "Upload Failed"; else it contains "open" and the status
    becomes "Port In Use / Please Close"; else its '#' characters are
    added to [progressCount] (and the status gets its full stops).  In
    the first three ways nothing but the status changes. *)
Theorem parser_sets_one_status (result : string) (g : GUI) :
  let g' := onReadyReadStandardOutput result g in
  (contains "complete" result → g' = setText "Complete" g) ∧
  (¬ contains "complete" result → contains "failed" result →
     g' = setText "Upload Failed" g) ∧
  (¬ contains "complete" result → ¬ contains "failed" result →
   contains "open" result →
     g' = setText "Port In Use / Please Close" g) ∧
  (¬ contains "complete" result → ¬ contains "failed" result →
   ¬ contains "open" result →
     progressCount g' = progressCount g + Z.of_nat (count "#" result) ∧
     g' = setText (status g +:+ dots (Z.to_nat (progressCount g' ÷ 3)))
                  (set_progressCount (progressCount g') g)).
Proof.
  cbv zeta. repeat split; intros; occurs_to_bool.
  - unfold onReadyReadStandardOutput.
    by match goal with H : _ = true |- _ => rewrite H end.
  - unfold onReadyReadStandardOutput.
    by repeat match goal with H : str_in _ _ = _ |- _ => rewrite H; clear H end.
  - unfold onReadyReadStandardOutput.
    by repeat match goal with H : str_in _ _ = _ |- _ => rewrite H; clear H end.
  - by rewrite parser_progress_branch.
  - by rewrite parser_progress_branch.
Qed.

Lemma parser_sets_one_status_witness :
  onReadyReadStandardOutput "Upload complete" example_gui
    = setText "Complete" example_gui ∧
  onReadyReadStandardOutput "failed to open port" example_gui
    = setText "Upload Failed" example_gui ∧
  onReadyReadStandardOutput "could not open COM3" example_gui
    = setText "Port In Use / Please Close" example_gui ∧
  progressCount (onReadyReadStandardOutput "#####" example_gui) = 6.
Proof.
  split; [| split; [| split]].
  - apply (parser_sets_one_status "Upload complete" example_gui).
    by apply str_in_contains.
  - apply (parser_sets_one_status "failed to open port" example_gui).
    + by apply not_str_in_contains.
    + by apply str_in_contains.
  - apply (parser_sets_one_status "could not open COM3" example_gui).
    + by apply not_str_in_contains.
    + by apply not_str_in_contains.
    + by apply str_in_contains.
  - apply (parser_sets_one_status "#####" example_gui);
      by apply not_str_in_contains.
Defined.

(** ** Progress within a session *)

Lemma parser_progressCount_le (result : string) (g : GUI) :
  progressCount g ≤ progressCount (onReadyReadStandardOutput result g).
Proof.
  unfold onReadyReadStandardOutput.
  destruct (str_in "complete" result); [done |].
  destruct (str_in "failed" result); [done |].
  destruct (str_in "open" result); [done |].
  rewrite iter_dots. cbn [setText set_progressCount progressCount]. lia.
Qed.

Lemma read_chunks_progressCount_le (chunks : list string) (g : GUI) :
  progressCount g ≤ progressCount (read_chunks chunks g).
Proof.
  revert g. induction chunks as [|result chunks IH]; intros g; [done |].
  cbn [read_chunks foldl]. etrans; [apply (parser_progressCount_le result) |].
  apply IH.
Qed.

(** The status after a chunk: the old one with full stops added, or one
    of the three messages with the counter left as it was. *)
Lemma parser_status_cases (result : string) (g : GUI) :
  let g' := onReadyReadStandardOutput result g in
  (∃ n : nat, status g' = status g +:+ dots n) ∨
  (status g' ∈ ["Complete"; "Upload Failed"; "Port In Use / Please Close"] ∧
   progressCount g' = progressCount g).
Proof.
  cbv zeta. unfold onReadyReadStandardOutput.
  destruct (str_in "complete" result); [right; split; [set_solver | done] |].
  destruct (str_in "failed" result); [right; split; [set_solver | done] |].
  destruct (str_in "open" result); [right; split; [set_solver | done] |].
  left. rewrite iter_dots. by eexists.
Qed.

(** C2, as the code has it: [progressCount] is set to 0 and the status
    to "Uploading " when an upload starts, and from then on no chunk
    lowers the counter, neither alone nor over a whole session.  A chunk
    without any of the three tokens adds its number of '#' to the
    counter and appends [int(progressCount / 3)] full stops to the
    status, removing nothing.  A chunk with a token leaves the counter
    as it is and puts the message of the token in the place of the
    status: "Complete" for "complete", else "Upload Failed" for
    "failed", else "Port In Use / Please Close" for "open".  On
    "Complete" the counter keeps the value it has, whatever that is. *)
Theorem progress_never_decreases :
  (∀ (env : Env) (g : GUI),
     portAvailable (comports env) (port g) = true →
     can_open env (fileLocation_lineedit g) = true →
     progressCount (on_upload_btn_pressed env g) = 0 ∧
     status (on_upload_btn_pressed env g) = "Uploading ") ∧
  (∀ (result : string) (g : GUI),
     progressCount g ≤ progressCount (onReadyReadStandardOutput result g)) ∧
  (∀ (chunks : list string) (g : GUI),
     progressCount g ≤ progressCount (read_chunks chunks g)) ∧
  (∀ (result : string) (g : GUI),
     let g' := onReadyReadStandardOutput result g in
     (∃ n : nat, status g' = status g +:+ dots n) ∨
     (status g' ∈ ["Complete"; "Upload Failed"; "Port In Use / Please Close"] ∧
      progressCount g' = progressCount g)) ∧
  (∀ (result : string) (g : GUI),
     contains "complete" result →
     status (onReadyReadStandardOutput result g) = "Complete" ∧
     progressCount (onReadyReadStandardOutput result g) = progressCount g) ∧
  (∀ (result : string) (g : GUI),
     ¬ contains "complete" result → contains "failed" result →
     status (onReadyReadStandardOutput result g) = "Upload Failed" ∧
     progressCount (onReadyReadStandardOutput result g) = progressCount g) ∧
  (∀ (result : string) (g : GUI),
     ¬ contains "complete" result → ¬ contains "failed" result →
     contains "open" result →
     status (onReadyReadStandardOutput result g) = "Port In Use / Please Close" ∧
     progressCount (onReadyReadStandardOutput result g) = progressCount g) ∧
  (∀ (result : string) (g : GUI),
     ¬ contains "complete" result → ¬ contains "failed" result →
     ¬ contains "open" result →
     let g' := onReadyReadStandardOutput result g in
     0 ≤ Z.of_nat (count "#" result) ∧
     progressCount g' = progressCount g + Z.of_nat (count "#" result) ∧
     status g' = status g +:+ dots (Z.to_nat (progressCount g' ÷ 3))).
Proof.
  split; [| split; [| split; [| split; [| split; [| split; [| split]]]]]].
  - intros env g Hp Hf. unfold on_upload_btn_pressed. by rewrite Hp, Hf.
  - apply parser_progressCount_le.
  - apply read_chunks_progressCount_le.
  - apply parser_status_cases.
  - intros result g H. occurs_to_bool.
    unfold onReadyReadStandardOutput. by rewrite H.
  - intros result g H1 H2. occurs_to_bool.
    unfold onReadyReadStandardOutput. by rewrite H1, H2.
  - intros result g H1 H2 H3. occurs_to_bool.
    unfold onReadyReadStandardOutput. by rewrite H1, H2, H3.
  - intros result g H1 H2 H3. occurs_to_bool. cbv zeta.
    rewrite (parser_progress_branch result g H1 H2 H3). cbv zeta.
    cbn [setText set_progressCount progressCount status].
    split; [lia |]. by split.
Qed.

Lemma progress_never_decreases_witness :
  progressCount (on_upload_btn_pressed example_env example_gui) = 0 ∧
  (status (onReadyReadStandardOutput "Upload complete"
             (set_progressCount 50 example_gui)) = "Complete" ∧
   progressCount (onReadyReadStandardOutput "Upload complete"
                    (set_progressCount 50 example_gui)) = 50) ∧
  (status (onReadyReadStandardOutput "## failed"
             (set_progressCount 7 example_gui)) = "Upload Failed" ∧
   progressCount (onReadyReadStandardOutput "## failed"
                    (set_progressCount 7 example_gui)) = 7) ∧
  (status (onReadyReadStandardOutput "could not open COM3"
             (set_progressCount 7 example_gui)) = "Port In Use / Please Close" ∧
   progressCount (onReadyReadStandardOutput "could not open COM3"
                    (set_progressCount 7 example_gui)) = 7) ∧
  (progressCount (onReadyReadStandardOutput "####"
                    (setText "Uploading ." (set_progressCount 3 example_gui))) = 7 ∧
   status (onReadyReadStandardOutput "####"
             (setText "Uploading ." (set_progressCount 3 example_gui)))
     = "Uploading ...").
Proof.
  destruct progress_never_decreases
    as (Hstart & _ & _ & _ & Hdone & Hfailed & Hopen & Hhash).
  split; [| split; [| split; [| split]]].
  - by apply (Hstart example_env example_gui).
  - apply (Hdone "Upload complete" (set_progressCount 50 example_gui)).
    by apply str_in_contains.
  - apply (Hfailed "## failed" (set_progressCount 7 example_gui)).
    + by apply not_str_in_contains.
    + by apply str_in_contains.
  - apply (Hopen "could not open COM3" (set_progressCount 7 example_gui)).
    + by apply not_str_in_contains.
    + by apply not_str_in_contains.
    + by apply str_in_contains.
  - destruct (Hhash "####"
                (setText "Uploading ." (set_progressCount 3 example_gui)))
      as (_ & Hpc & Hst); try (by apply not_str_in_contains).
    split; [exact Hpc | exact Hst].
Defined.

(** C2 fails as stated: in the session below the upload starts, the
    uploader writes three '#' and then "complete".  The status is then
    "Complete", the full stop shown before is gone, and the progress
    counter is 3, not 100. *)
Lemma progress_complete_counterexample :
  let g0 := on_upload_btn_pressed example_env example_gui in
  let g1 := read_chunks ["###"] g0 in
  let g2 := read_chunks ["###"; "Upload complete"] g0 in
  progressCount g0 = 0 ∧ status g1 = "Uploading ." ∧
  status g2 = "Complete" ∧ progressCount g2 = 3 ∧ progressCount g2 ≠ 100 ∧
  ¬ (∃ n : nat, status g2 = status g1 +:+ dots n).
Proof.
  cbv zeta. repeat split; try done.
  intros [n H]. vm_compute in H. destruct n; discriminate H.
Qed.

(** ** Starting an upload *)

(** The loop over the ports, from any value of the flag. *)
Lemma portAvailable_foldl (ports : list ListPortInfo) (selected : QVariant) (avail : bool) :
  foldl (λ avail p, if decide (VStr (device p) = selected) then true else avail)
        avail ports = true
  ↔ avail = true ∨ ∃ p : ListPortInfo, p ∈ ports ∧ VStr (device p) = selected.
Proof.
  revert avail. induction ports as [|p ports IH]; intros avail; cbn [foldl].
  - split; [by left | intros [H | (p & Hp & _)]; [done | by apply elem_of_nil in Hp]].
  - rewrite IH. destruct (decide (VStr (device p) = selected)) as [E|N].
    + split; [intros _ | by left]. right. exists p. split; [left | done].
    + split.
      * intros [H | (q & Hq & E)]; [by left |].
        right. exists q. split; [by right | done].
      * intros [H | (q & Hq & E)]; [by left |].
        apply elem_of_cons in Hq as [-> | Hq]; [done |].
        right. by exists q.
Qed.

(** The flag is set exactly when some enumerated port has the selected
    device. *)
Lemma portAvailable_spec (ports : list ListPortInfo) (selected : QVariant) :
  portAvailable ports selected = true ↔
  ∃ p : ListPortInfo, p ∈ ports ∧ VStr (device p) = selected.
Proof.
  unfold portAvailable. rewrite portAvailable_foldl.
  split; [intros [H | H]; [done | exact H] | by right].
Qed.

Lemma portAvailable_false (ports : list ListPortInfo) (selected : QVariant) :
  portAvailable ports selected = false ↔
  ∀ p : ListPortInfo, p ∈ ports → VStr (device p) ≠ selected.
Proof.
  rewrite <- not_true_iff_false, portAvailable_spec. split.
  - intros H p Hp E. apply H. by exists p.
  - intros H (p & Hp & E). by apply (H p).
Qed.

(** What a press on Upload does once the port check and the file check
    have passed. *)
Lemma upload_started (env : Env) (g : GUI) :
  portAvailable (comports env) (port g) = true →
  can_open env (fileLocation_lineedit g) = true →
  let path := fileLocation_lineedit g in
  let cmd := "artemis_svl.exe " +:+ py_str (port g) +:+ " -f" +:+ dquote +:+
             path +:+ dquote +:+ " -b" +:+ py_str (baudRate g) in
  on_upload_btn_pressed env g =
    mkGUI path (port_combobox g) (baud_combobox g) "Uploading "
          (Some (mkProcess cmd)) 0
          (events g ++ [EvOpen path; EvClose path; EvStart cmd]).
Proof.
  intros Hp Hf. cbv zeta. unfold on_upload_btn_pressed. rewrite Hp, Hf.
  cbn [negb]. unfold emit, set_process, setText, set_progressCount, port, baudRate.
  cbn [fileLocation_lineedit port_combobox baud_combobox status process
       progressCount events].
  rewrite !append_assoc, <- !(assoc_L (++)). done.
Qed.

(** C3: when the selected port device is not among the ports enumerated
    at the time of the press, the status becomes "Port No Longer
    Available" and nothing else happens: no file is opened, no process
    is started, the counter and the process handle stay as they were. *)
Theorem upload_port_gone (env : Env) (g : GUI) :
  (∀ p : ListPortInfo, p ∈ comports env → VStr (device p) ≠ port g) →
  on_upload_btn_pressed env g = setText "Port No Longer Available" g ∧
  status (on_upload_btn_pressed env g) = "Port No Longer Available" ∧
  events (on_upload_btn_pressed env g) = events g ∧
  process (on_upload_btn_pressed env g) = process g.
Proof.
  intros H%portAvailable_false. unfold on_upload_btn_pressed. by rewrite H.
Qed.

Lemma upload_port_gone_witness :
  let env := mkEnv [mkPort "Bluetooth link (COM7)" "COM7"] (λ _, true) in
  status (on_upload_btn_pressed env example_gui) = "Port No Longer Available" ∧
  events (on_upload_btn_pressed env example_gui) = [].
Proof.
  cbv zeta.
  refine (let H := upload_port_gone
                     (mkEnv [mkPort "Bluetooth link (COM7)" "COM7"] (λ _, true))
                     example_gui _ in
          conj (proj1 (proj2 H)) (proj1 (proj2 (proj2 H)))).
  intros p Hp. apply list_elem_of_singleton in Hp. by subst p.
Defined.

(** C8: the uploader is started only if the file named in the line edit
    can be opened.  With the port check passed, a file that cannot be
    opened gives the status "File Not Found" and nothing else; a file
    that can be opened is opened, closed again, and only then is the
    process started. *)
Theorem upload_checks_file (env : Env) (g : GUI) :
  let g' := on_upload_btn_pressed env g in
  let path := fileLocation_lineedit g in
  (events g' = events g ∧ process g' = process g ∨
   can_open env path = true ∧
   ∃ cmd : string,
     events g' = events g ++ [EvOpen path; EvClose path; EvStart cmd]) ∧
  (portAvailable (comports env) (port g) = true →
   can_open env path = false →
     g' = setText "File Not Found" g) ∧
  (portAvailable (comports env) (port g) = true →
   can_open env path = true →
     ∃ cmd : string,
       events g' = events g ++ [EvOpen path; EvClose path; EvStart cmd] ∧
       process g' = Some (mkProcess cmd)).
Proof.
  cbv zeta. split; [| split].
  - destruct (portAvailable (comports env) (port g)) eqn:Hp.
    + destruct (can_open env (fileLocation_lineedit g)) eqn:Hf.
      * right. split; [done |]. rewrite (upload_started env g Hp Hf).
        by eexists.
      * left. unfold on_upload_btn_pressed. by rewrite Hp, Hf.
    + left. unfold on_upload_btn_pressed. by rewrite Hp.
  - intros Hp Hf. unfold on_upload_btn_pressed. by rewrite Hp, Hf.
  - intros Hp Hf. rewrite (upload_started env g Hp Hf). by eexists.
Qed.

Lemma upload_checks_file_witness :
  let env := mkEnv (comports example_env) (λ _, false) in
  on_upload_btn_pressed env example_gui = setText "File Not Found" example_gui ∧
  ∃ cmd : string,
    events (on_upload_btn_pressed example_env example_gui)
      = [EvOpen "C:/fw/app.bin"; EvClose "C:/fw/app.bin"; EvStart cmd].
Proof.
  cbv zeta. split.
  - by apply (upload_checks_file (mkEnv (comports example_env) (λ _, false))
                                 example_gui).
  - destruct (upload_checks_file example_env example_gui) as (_ & _ & H).
    destruct (H eq_refl eq_refl) as (cmd & Hev & _). by exists cmd.
Defined.

(** C9: when an upload is started, the selected port is one of the
    enumerated devices, and the command line of the process is
    "artemis_svl.exe ", that device, " -f", a double quote, the file
    path, a double quote, " -b" and the selected baud rate as [str]
    prints it. *)
Theorem upload_command_line (env : Env) (g : GUI) :
  portAvailable (comports env) (port g) = true →
  can_open env (fileLocation_lineedit g) = true →
  ∃ dev : string,
    port g = VStr dev ∧ dev ∈ device <$> comports env ∧
    let cmd := "artemis_svl.exe " +:+ dev +:+ " -f" +:+ dquote +:+
               fileLocation_lineedit g +:+ dquote +:+ " -b" +:+
               py_str (baudRate g) in
    process (on_upload_btn_pressed env g) = Some (mkProcess cmd) ∧
    last (events (on_upload_btn_pressed env g)) = Some (EvStart cmd).
Proof.
  intros Hp Hf. destruct (proj1 (portAvailable_spec _ _) Hp) as (p & Hin & E).
  exists (device p). split; [done |]. split; [by apply list_elem_of_fmap_2 |].
  cbv zeta. rewrite (upload_started env g Hp Hf), <- E.
  cbn [process events py_str]. split; [done |].
  by rewrite last_app.
Qed.

Lemma upload_command_line_witness :
  process (on_upload_btn_pressed example_env example_gui) =
  Some (mkProcess ("artemis_svl.exe COM3 -f" +:+ dquote +:+ "C:/fw/app.bin" +:+
                   dquote +:+ " -b921600")).
Proof.
  destruct (upload_command_line example_env example_gui eq_refl eq_refl)
    as (dev & Hdev & _ & Hproc & _).
  injection Hdev as <-. exact Hproc.
Defined.

(** C5, as the code has it: a press on Upload is never refused because
    an uploader was started before.  Whenever the selected port is
    enumerated and the file opens, the press starts a new process,
    whatever process the widget holds; the widget learns that the port
    is taken only from a chunk of output that contains "open" (without
    "complete" or "failed" in it), which sets the status
    "Port In Use / Please Close". *)
Theorem upload_while_process_held (env : Env) (g : GUI) (p : QProcess) :
  process g = Some p →
  portAvailable (comports env) (port g) = true →
  can_open env (fileLocation_lineedit g) = true →
  let g' := on_upload_btn_pressed env g in
  status g' = "Uploading " ∧ progressCount g' = 0 ∧
  (∃ cmd : string,
     events g' = events g ++ [EvOpen (fileLocation_lineedit g);
                              EvClose (fileLocation_lineedit g); EvStart cmd] ∧
     process g' = Some (mkProcess cmd)) ∧
  (∀ result : string,
     ¬ contains "complete" result → ¬ contains "failed" result →
     contains "open" result →
     status (onReadyReadStandardOutput result g') = "Port In Use / Please Close").
Proof.
  intros _ Hp Hf. cbv zeta. rewrite (upload_started env g Hp Hf).
  cbn [status progressCount events process]. split; [done |]. split; [done |].
  split; [by eexists |].
  intros result H1 H2 H3. occurs_to_bool.
  unfold onReadyReadStandardOutput. by rewrite H1, H2, H3.
Qed.

Lemma upload_while_process_held_witness :
  let g1 := on_upload_btn_pressed example_env example_gui in
  status (on_upload_btn_pressed example_env g1) = "Uploading " ∧
  progressCount (on_upload_btn_pressed example_env g1) = 0.
Proof.
  cbv zeta.
  destruct (upload_while_process_held example_env
              (on_upload_btn_pressed example_env example_gui)
              (mkProcess ("artemis_svl.exe COM3 -f" +:+ dquote +:+
                          "C:/fw/app.bin" +:+ dquote +:+ " -b921600"))
              eq_refl eq_refl eq_refl) as (Hs & Hc & _).
  by split.
Defined.

(** C5 fails as stated: after a first press has started the uploader on
    COM3, a second press is not refused.  It starts a second uploader on
    the same port, and the status is "Uploading " again. *)
Lemma upload_busy_counterexample :
  let g1 := on_upload_btn_pressed example_env example_gui in
  let g2 := on_upload_btn_pressed example_env g1 in
  let cmd := "artemis_svl.exe COM3 -f" +:+ dquote +:+ "C:/fw/app.bin" +:+
             dquote +:+ " -b921600" in
  process g1 = Some (mkProcess cmd) ∧
  events g1 = [EvOpen "C:/fw/app.bin"; EvClose "C:/fw/app.bin"; EvStart cmd] ∧
  status g2 = "Uploading " ∧
  events g2 = events g1 ++
              [EvOpen "C:/fw/app.bin"; EvClose "C:/fw/app.bin"; EvStart cmd].
Proof. cbv zeta. by vm_compute. Qed.

(** ** The list of ports *)

(** Adding the items of a list to a box, one after the other. *)
Lemma addItem_foldl (l : list (string * string)) (cb : QComboBox) :
  let cb' := foldl (λ cb nd, Combo.addItem (fst nd) (VStr (snd nd)) cb) cb l in
  items cb' = items cb ++ ((λ nd, (fst nd, VStr (snd nd))) <$> l) ∧
  currentIndex cb' = match items cb, l with
                     | [], _ :: _ => 0
                     | _, _ => currentIndex cb
                     end.
Proof.
  cbv zeta. revert cb. induction l as [|nd l IH]; intros cb; cbn [foldl].
  - rewrite app_nil_r. by destruct (items cb).
  - destruct (IH (Combo.addItem (fst nd) (VStr (snd nd)) cb)) as [-> ->].
    cbn [Combo.addItem items currentIndex fmap list_fmap].
    rewrite <- (assoc_L (++)). split; [done |].
    destruct (items cb), l; done.
Qed.

(** Restoring a selection leaves the items of the box alone. *)
Lemma restore_selection_items (saved : QVariant) (cb : QComboBox) :
  items (restore_selection saved cb) = items cb.
Proof.
  unfold restore_selection. destruct (decide (saved = VNone)); [done |].
  by destruct (decide (Combo.findData saved cb > -1)).
Qed.

(** Loading the settings selects items; it adds and removes none, and
    the baud rates are added to the other box. *)
Lemma load_settings_port_items (env : Env) (settings : QSettings) (g g1 : GUI) :
  _load_settings settings (update_baud_rates (update_com_ports env g)) = Some g1 →
  items (port_combobox g1)
    = (λ p, (description p, VStr (device p))) <$> comports env.
Proof.
  unfold _load_settings. cbv zeta.
  destruct (value SETTING_FILE_LOCATION settings);
    cbn [mbind option_bind]; intros H; [| | discriminate H];
    injection H as <-;
    cbn [set_baud_combobox set_fileLocation set_port_combobox port_combobox
         update_baud_rates update_com_ports];
    rewrite restore_selection_items;
    destruct (addItem_foldl (gen_serial_ports env)
                (Combo.clear (port_combobox g))) as [-> _];
    unfold gen_serial_ports; cbn [Combo.clear items app];
    by rewrite <- list_fmap_compose.
Qed.

(** C10: after [update_com_ports] the port box holds one item per
    enumerated port, in the order of the enumeration, with the
    description as text and the device as data; what the box held before
    is gone.  The first port is the current item, and none is when no
    port was found.  Both the construction and the Refresh button go
    through this function. *)
Theorem update_com_ports_items (env : Env) (g : GUI) :
  let cb := port_combobox (update_com_ports env g) in
  items cb = (λ p, (description p, VStr (device p))) <$> comports env ∧
  length (items cb) = length (comports env) ∧
  (∀ (i : nat) (p : ListPortInfo),
     comports env !! i = Some p →
     items cb !! i = Some (description p, VStr (device p))) ∧
  currentIndex cb = (if comports env is [] then -1 else 0) ∧
  on_refresh_btn_pressed env g = update_com_ports env g ∧
  update_com_ports env g = set_port_combobox cb g ∧
  (∀ (settings : QSettings) (g1 : GUI),
     init env settings = Some g1 →
     items (port_combobox g1)
       = (λ p, (description p, VStr (device p))) <$> comports env).
Proof.
  cbv zeta. unfold update_com_ports at 1 2 3 4.
  cbn [set_port_combobox port_combobox].
  destruct (addItem_foldl (gen_serial_ports env)
              (Combo.clear (port_combobox g))) as [Hi Hc].
  assert (items (foldl (λ cb nd, Combo.addItem (fst nd) (VStr (snd nd)) cb)
                   (Combo.clear (port_combobox g)) (gen_serial_ports env))
          = (λ p, (description p, VStr (device p))) <$> comports env) as Hitems.
  { rewrite Hi. unfold gen_serial_ports. cbn [Combo.clear items app].
    rewrite <- list_fmap_compose. done. }
  split; [exact Hitems |]. split; [by rewrite Hitems, length_fmap |].
  split; [intros i p Hp; by rewrite Hitems, list_lookup_fmap, Hp |].
  split; [| split; [done |]; split; [done |]].
  - rewrite Hc. unfold gen_serial_ports. cbn [Combo.clear items currentIndex].
    by destruct (comports env).
  - intros settings g1. unfold init. apply load_settings_port_items.
Qed.

Lemma update_com_ports_items_witness :
  items (port_combobox (update_com_ports example_env example_gui)) !! 1%nat
  = Some ("Bluetooth link (COM7)", VStr "COM7").
Proof.
  destruct (update_com_ports_items example_env example_gui) as (_ & _ & H & _).
  by apply (H 1%nat (mkPort "Bluetooth link (COM7)" "COM7")).
Defined.

(** ** Settings *)

Lemma find_from_range (data : QVariant) (i : Z) (l : list (string * QVariant)) :
  0 ≤ i → Combo.find_from data i l = -1 ∨ i ≤ Combo.find_from data i l.
Proof.
  revert i. induction l as [|[t d] l IH]; intros i Hi; cbn [Combo.find_from].
  - by left.
  - destruct (decide (d = data)); [right; lia |].
    destruct (IH (i + 1)) as [H | H]; [lia | by left | right; lia].
Qed.

(** The search succeeds exactly when some item has the data. *)
Lemma find_from_found (data : QVariant) (i : Z) (l : list (string * QVariant)) :
  0 ≤ i → Combo.find_from data i l > -1 ↔ data ∈ l.*2.
Proof.
  revert i. induction l as [|[t d] l IH]; intros i Hi; cbn [Combo.find_from].
  - split; [lia | by intros ?%elem_of_nil].
  - rewrite fmap_cons, elem_of_cons. cbn [snd].
    destruct (decide (d = data)) as [-> | N].
    + split; [by left | lia].
    + rewrite IH by lia. split; [by right | by intros [-> | H]].
Qed.

(** The index found is that of an item with the data. *)
Lemma find_from_lookup (data : QVariant) (i : Z) (l : list (string * QVariant)) :
  0 ≤ i → Combo.find_from data i l > -1 →
  ∃ t : string, l !! Z.to_nat (Combo.find_from data i l - i) = Some (t, data).
Proof.
  revert i. induction l as [|[t d] l IH]; intros i Hi; cbn [Combo.find_from].
  - lia.
  - destruct (decide (d = data)) as [-> | N].
    + intros _. exists t. by rewrite Z.sub_diag.
    + intros H. destruct (IH (i + 1) ltac:(lia) H) as [t' Ht'].
      exists t'. destruct (find_from_range data (i + 1) l) as [E | E]; [lia | lia |].
      replace (Combo.find_from data (i + 1) l - i)
        with (Z.succ (Combo.find_from data (i + 1) l - (i + 1))) by lia.
      rewrite Z2Nat.inj_succ by lia. exact Ht'.
Qed.

(** A saved value that is found among the items becomes the current
    data; the items stay. *)
Lemma restore_selection_found (saved : QVariant) (cb : QComboBox) :
  saved ≠ VNone → saved ∈ (items cb).*2 →
  Combo.currentData (restore_selection saved cb) = saved ∧
  currentIndex (restore_selection saved cb) = Combo.findData saved cb ∧
  items (restore_selection saved cb) = items cb.
Proof.
  intros Hn Hin. unfold restore_selection, Combo.findData.
  destruct (decide (saved = VNone)); [done |].
  pose proof (proj2 (find_from_found saved 0 (items cb) ltac:(lia)) Hin) as Hf.
  destruct (decide (Combo.find_from saved 0 (items cb) > -1)); [| done].
  split; [| done].
  unfold Combo.currentData. cbn [Combo.setCurrentIndex items currentIndex].
  destruct (decide (0 ≤ Combo.find_from saved 0 (items cb))); [| lia].
  destruct (find_from_lookup saved 0 (items cb) ltac:(lia) Hf) as [t Ht].
  rewrite Z.sub_0_r in Ht. by rewrite Ht.
Qed.

(** A saved value that no item has leaves the box as it is. *)
Lemma restore_selection_missing (saved : QVariant) (cb : QComboBox) :
  saved ∉ (items cb).*2 → restore_selection saved cb = cb.
Proof.
  intros Hin. unfold restore_selection, Combo.findData.
  destruct (decide (saved = VNone)); [done |].
  destruct (decide (Combo.find_from saved 0 (items cb) > -1)) as [Hf |]; [| done].
  by apply find_from_found in Hf.
Qed.

(** What [_save_settings] leaves under the three keys. *)
Lemma save_settings_lookup (g : GUI) (settings : QSettings) :
  value SETTING_PORT_NAME (_save_settings g settings) = port g ∧
  value SETTING_FILE_LOCATION (_save_settings g settings)
    = VStr (fileLocation_lineedit g) ∧
  value SETTING_BAUD_RATE (_save_settings g settings) = baudRate g.
Proof.
  unfold value, _save_settings, setValue. cbv zeta.
  split; [| split]; repeat (rewrite lookup_insert_ne by done);
    by rewrite lookup_insert_eq.
Qed.

(** C7: closing the window stores the current port device, the text of
    the file location and the current baud rate under the three keys,
    and loading these settings into a widget restores them: the text
    always; the selection of a box exactly when the saved value is the
    data of one of its items, which is when [findData] returns an index
    above -1.  A saved value that no item has leaves the box as it was.
    [QSettings] is taken to give back the values as they were stored. *)
Theorem settings_round_trip (g g0 : GUI) (settings : QSettings) :
  let saved := closeEvent g settings in
  (saved !! SETTING_PORT_NAME = Some (port g) ∧
   saved !! SETTING_FILE_LOCATION = Some (VStr (fileLocation_lineedit g)) ∧
   saved !! SETTING_BAUD_RATE = Some (baudRate g)) ∧
  ∃ g1 : GUI,
    _load_settings saved g0 = Some g1 ∧
    fileLocation_lineedit g1 = fileLocation_lineedit g ∧
    (Combo.findData (port g) (port_combobox g0) > -1
       ↔ port g ∈ (items (port_combobox g0)).*2) ∧
    (port g ≠ VNone → port g ∈ (items (port_combobox g0)).*2 →
       port g1 = port g ∧ items (port_combobox g1) = items (port_combobox g0)) ∧
    (port g ∉ (items (port_combobox g0)).*2 →
       port_combobox g1 = port_combobox g0) ∧
    (Combo.findData (baudRate g) (baud_combobox g0) > -1
       ↔ baudRate g ∈ (items (baud_combobox g0)).*2) ∧
    (baudRate g ≠ VNone → baudRate g ∈ (items (baud_combobox g0)).*2 →
       baudRate g1 = baudRate g ∧ items (baud_combobox g1) = items (baud_combobox g0)) ∧
    (baudRate g ∉ (items (baud_combobox g0)).*2 →
       baud_combobox g1 = baud_combobox g0).
Proof.
  cbv zeta. unfold closeEvent. split.
  - unfold _save_settings, setValue. cbv zeta.
    split; [| split]; repeat (rewrite lookup_insert_ne by done);
      by rewrite lookup_insert_eq.
  - destruct (save_settings_lookup g settings) as (Hp & Hm & Hb).
    eexists. unfold _load_settings. cbv zeta. rewrite Hp, Hm, Hb.
    cbn [mbind option_bind]. split; [reflexivity |].
    unfold port, baudRate.
    cbn [set_baud_combobox set_fileLocation set_port_combobox
         fileLocation_lineedit port_combobox baud_combobox].
    split; [done |].
    split; [apply find_from_found; lia |].
    split; [intros Hn Hin; split;
              [by apply restore_selection_found | apply restore_selection_items] |].
    split; [apply restore_selection_missing |].
    split; [apply find_from_found; lia |].
    split; [intros Hn Hin; split;
              [by apply restore_selection_found | apply restore_selection_items] |].
    apply restore_selection_missing.
Qed.

Lemma settings_round_trip_witness :
  ∃ g1 : GUI,
    init example_env (closeEvent example_gui_closing ∅) = Some g1 ∧
    fileLocation_lineedit g1 = "C:/fw/app.bin" ∧
    port g1 = VStr "COM7" ∧ baudRate g1 = VInt 115200.
Proof.
  destruct (settings_round_trip example_gui_closing example_gui_startup ∅)
    as (_ & g1 & Hload & Hfile & _ & Hport & _ & _ & Hbaud & _).
  exists g1. split; [exact Hload |]. split; [exact Hfile |]. split.
  - apply Hport; [done |]. vm_compute. repeat constructor.
  - apply Hbaud; [done |]. vm_compute. repeat constructor.
Defined.

(** ** The Image Segmenter *)

Lemma ceil_div_0 (P : nat) : (0 < P)%nat → ceil_div 0 P = 0%nat.
Proof. intros HP. unfold ceil_div. apply Nat.div_small. lia. Qed.

(** One page is cut, and the rest is what remains after [P] bytes. *)
Lemma ceil_div_step (L P : nat) :
  (0 < P)%nat → (0 < L)%nat → ceil_div L P = S (ceil_div (L - P) P).
Proof.
  intros HP HL. unfold ceil_div. destruct (le_lt_dec P L) as [Hle | Hlt].
  - replace (L + P - 1)%nat with ((L - P + P - 1) + 1 * P)%nat by lia.
    rewrite Nat.div_add by lia. lia.
  - replace (L - P)%nat with 0%nat by lia.
    rewrite (Nat.div_small (0 + P - 1) P) by lia.
    symmetry. apply (Nat.div_unique _ _ _ (L - 1)); lia.
Qed.

(** The ceiling is the least number of pages that hold [L] bytes. *)
Lemma ceil_div_bounds (L P : nat) :
  (0 < P)%nat →
  (L ≤ ceil_div L P * P)%nat ∧ (ceil_div L P * P < L + P)%nat.
Proof.
  intros HP. unfold ceil_div.
  pose proof (Nat.div_mod_eq (L + P - 1) P) as E.
  pose proof (Nat.mod_upper_bound (L + P - 1) P ltac:(lia)) as B.
  rewrite (Nat.mul_comm _ P). split; lia.
Qed.

Section SegmenterFacts.
Context {C : Type} (checksum : list byte → C).

Lemma segment_from_spec (P i : nat) (image : list byte) :
  (0 < P)%nat →
  let pages := Segmenter.segment_from checksum P i image in
  length pages = ceil_div (length image) P ∧
  concat (Segmenter.payload <$> pages)
    = image ++ replicate (ceil_div (length image) P * P - length image) x00 ∧
  Segmenter.index <$> pages = seq i (length pages) ∧
  Forall (λ pg, length (Segmenter.payload pg) = P ∧
                Segmenter.page_checksum pg = checksum (Segmenter.payload pg))
         pages.
Proof.
  cbv zeta.
  funelim (Segmenter.segment_from checksum P i image); intros HP;
    simp segment_from.
  - lia.
  - cbn [length]. rewrite ceil_div_0 by lia. done.
  - cbv zeta.
    match goal with IH : (0 < S p)%nat → _ |- _ =>
      destruct (IH ltac:(lia)) as (IHlen & IHcat & IHidx & IHall) end.
    set (image := b :: rest) in *.
    assert (0 < length image)%nat as HL by (subst image; cbn [length]; lia).
    rewrite length_drop in IHlen, IHcat.
    pose proof (ceil_div_step (length image) (S p) ltac:(lia) HL) as Hstep.
    assert (length (Segmenter.zero_fill (S p) (take (S p) image)) = S p) as Hfill.
    { unfold Segmenter.zero_fill. rewrite length_app, length_replicate, length_take. lia. }
    split; [| split; [| split]].
    + cbn [length]. rewrite IHlen, Hstep. done.
    + rewrite fmap_cons. cbn [concat Segmenter.payload]. rewrite IHcat.
      unfold Segmenter.zero_fill. rewrite length_take.
      rewrite Hstep.
      match goal with |- _ = image ++ ?r =>
        trans ((take (S p) image ++ drop (S p) image) ++ r);
          [| by rewrite take_drop]
      end.
      rewrite <- !(assoc_L (++)). f_equal.
      destruct (le_lt_dec (S p) (length image)) as [Hle | Hlt].
      * replace (S p - S p `min` length image)%nat with 0%nat by lia.
        cbn [replicate app]. do 2 f_equal. lia.
      * rewrite (drop_ge image (S p)) by lia. cbn [app].
        replace (length image - S p)%nat with 0%nat by lia.
        rewrite ceil_div_0 by lia. cbn [replicate].
        rewrite app_nil_r. f_equal. lia.
    + rewrite fmap_cons. cbn [length seq Segmenter.index]. by rewrite IHidx.
    + constructor; [| exact IHall]. cbn [Segmenter.payload Segmenter.page_checksum].
      by split.
Qed.

End SegmenterFacts.

(** C4: for an image of [L] bytes and a page size [P > 0] the segmenter
    yields [ceil(L/P)] pages, numbered from 0, each of [P] bytes; their
    payloads put end to end are the image followed by
    [ceil(L/P)*P - L] zero bytes; and any two runs on the same image and
    page size give the same pages. *)
Theorem segment_pages {C : Type} (checksum : list byte → C)
    (image : list byte) (P : nat) :
  (0 < P)%nat →
  let L := length image in
  let pages := Segmenter.segment checksum image P in
  length pages = ceil_div L P ∧
  (L ≤ ceil_div L P * P)%nat ∧ (ceil_div L P * P < L + P)%nat ∧
  concat (Segmenter.payload <$> pages)
    = image ++ replicate (ceil_div L P * P - L) x00 ∧
  Segmenter.index <$> pages = seq 0 (ceil_div L P) ∧
  Forall (λ pg, length (Segmenter.payload pg) = P) pages ∧
  (∀ again : list Segmenter.Page,
     again = Segmenter.segment checksum image P → again = pages).
Proof.
  intros HP. cbv zeta. unfold Segmenter.segment.
  destruct (segment_from_spec checksum P 0 image HP) as (Hlen & Hcat & Hidx & Hall).
  destruct (ceil_div_bounds (length image) P HP) as [Hlo Hhi].
  split; [exact Hlen |]. split; [exact Hlo |]. split; [exact Hhi |].
  split; [exact Hcat |]. split; [by rewrite Hidx, Hlen |].
  split; [| done].
  eapply Forall_impl; [exact Hall |]. by intros pg [H _].
Qed.

Lemma segment_pages_witness :
  let pages := Segmenter.segment (λ bs : list byte, length bs)
                 [x01; x02; x03; x04; x05] 2 in
  length pages = 3%nat ∧
  concat (Segmenter.payload <$> pages) = [x01; x02; x03; x04; x05; x00].
Proof.
  cbv zeta.
  destruct (segment_pages (λ bs : list byte, length bs)
              [x01; x02; x03; x04; x05] 2 ltac:(lia))
    as (Hlen & _ & _ & Hcat & _).
  split; [exact Hlen | exact Hcat].
Defined.


(** ** The page loop *)

Section PageLoopFacts.
Variables (retryLimit : nat) (device_ack : nat → Protocol.Ack).

Local Abbreviation acked := Protocol.acked.
Local Abbreviation in_page_order := (Protocol.in_page_order device_ack).
Local Abbreviation may_send := (Protocol.may_send device_ack).
Local Abbreviation send_page := (Protocol.send_page device_ack).
Local Abbreviation transfer_pages := (Protocol.transfer_pages retryLimit device_ack).

(** Sending the page that may be sent keeps the log in page order, and
    the answer decides which page may be sent after it. *)
Lemma may_send_snoc (sent : list nat) (index : nat) :
  may_send sent index →
  in_page_order (sent ++ [index]) ∧
  (acked (device_ack (length sent)) index = true →
     may_send (sent ++ [index]) (S index)) ∧
  (acked (device_ack (length sent)) index = false →
     may_send (sent ++ [index]) index).
Proof.
  intros [[Hhead Hadj] Hlast].
  assert (in_page_order (sent ++ [index])) as Hord.
  { split.
    - intros a Ha. destruct sent as [|x sent'].
      + cbn in Ha, Hlast. congruence.
      + apply Hhead. exact Ha.
    - intros k a b Ha Hb.
      assert (S k < length (sent ++ [index]))%nat as Hk
        by (by apply lookup_lt_Some in Hb).
      rewrite length_app in Hk. cbn [length] in Hk.
      rewrite lookup_app_l in Ha by lia.
      destruct (decide (S k < length sent)%nat) as [Hin | Hend].
      + rewrite lookup_app_l in Hb by lia. by apply Hadj.
      + assert (S k = length sent) as Hlen by lia.
        rewrite lookup_app_r, <- Hlen, Nat.sub_diag in Hb by lia.
        injection Hb as <-.
        assert (last sent = Some a) as Hl.
        { rewrite last_lookup, <- Hlen. exact Ha. }
        rewrite Hl, <- Hlen in Hlast.
        by replace (S k - 1)%nat with k in Hlast by lia. }
  split; [exact Hord |].
  split; intros Hack; (split; [exact Hord |]);
    rewrite last_snoc, length_app; cbn [length];
    replace (length sent + 1 - 1)%nat with (length sent) by lia; tauto.
Qed.

(** The exchange for one page: the page is sent between once and
    [retries_left + 1] times, every answer but the last is a refusal,
    and the page is given up only after all its sends were refused. *)
Lemma send_page_spec (retries_left index : nat) (sent : list nat) :
  may_send sent index →
  let sent' := (send_page index retries_left sent).1 in
  let ok := (send_page index retries_left sent).2 in
  in_page_order sent' ∧
  ∃ n : nat,
    (1 ≤ n ≤ S retries_left)%nat ∧
    sent' = sent ++ replicate n index ∧
    (∀ j : nat, (j < n - 1)%nat →
       acked (device_ack (length sent + j)) index = false) ∧
    acked (device_ack (length sent + (n - 1))) index = ok ∧
    (ok = false → n = S retries_left) ∧
    (ok = true → may_send sent' (S index)).
Proof.
  cbv zeta. revert sent.
  induction retries_left as [|r IH]; intros sent Hm;
    destruct (may_send_snoc sent index Hm) as (Hord & Hyes & Hno);
    cbn [Protocol.send_page];
    destruct (acked (device_ack (length sent)) index) eqn:Hack;
    cbn [fst snd].
  1-3: split; [exact Hord |]; exists 1%nat; rewrite Nat.add_0_r;
    (split; [lia |]); (split; [done |]); (split; [intros j Hj; lia |]);
    (split; [exact Hack |]); (split; [done |]); auto.
  - destruct (IH (sent ++ [index]) (Hno eq_refl))
      as (Hord' & n & Hn & Hsent & Hbad & Hlast & Hfail & Hgood).
    split; [exact Hord' |]. exists (S n).
    rewrite length_app in Hbad, Hlast. cbn [length] in Hbad, Hlast.
    split; [lia |]. split.
    { rewrite Hsent, <- (assoc_L (++)). done. }
    split.
    { intros j Hj. destruct j as [|j].
      - by rewrite Nat.add_0_r.
      - replace (length sent + S j)%nat with (length sent + 1 + j)%nat by lia.
        apply Hbad. lia. }
    split.
    { replace (length sent + (S n - 1))%nat
        with (length sent + 1 + (n - 1))%nat by lia.
      exact Hlast. }
    split; [intros H; rewrite (Hfail H); done | exact Hgood].
Qed.

(** The loop from page [index] on: the log stays in page order and only
    grows; the loop ends in Verifying with every page of its range
    acknowledged, or in Failed on a page all of whose
    [retryLimit + 1] sends were refused. *)
Lemma transfer_pages_spec (remaining index : nat) (sent : list nat) :
  may_send sent index →
  let sent' := (transfer_pages remaining index sent).1 in
  let st := (transfer_pages remaining index sent).2 in
  in_page_order sent' ∧
  (∃ ext : list nat, sent' = sent ++ ext) ∧
  (st = Protocol.Verifying ∧
   (∀ i : nat, (index ≤ i < index + remaining)%nat →
      ∃ k : nat, sent' !! k = Some i ∧ acked (device_ack k) i = true)
   ∨
   ∃ (idx : nat) (sent0 : list nat),
     (index ≤ idx < index + remaining)%nat ∧
     st = Protocol.Failed (Protocol.PageTransferFailed idx) ∧
     sent' = sent0 ++ replicate (S retryLimit) idx ∧
     ∀ j : nat, (j < S retryLimit)%nat →
       acked (device_ack (length sent0 + j)) idx = false).
Proof.
  cbv zeta. revert index sent.
  induction remaining as [|rem IH]; intros index sent Hm.
  - cbn [Protocol.transfer_pages fst snd].
    split; [exact (proj1 Hm) |]. split; [exists []; by rewrite app_nil_r |].
    left. split; [done |]. intros i Hi. lia.
  - cbn [Protocol.transfer_pages].
    destruct (send_page_spec retryLimit index sent Hm)
      as (Hord & n & Hn & Hs1 & Hbad & Hlast & Hfail & Hgood).
    destruct (send_page index retryLimit sent) as [s1 ok].
    cbn [fst snd] in *. destruct ok.
    + destruct (IH (S index) s1 (Hgood eq_refl))
        as (Hord' & [ext Hext] & Hcases).
      split; [exact Hord' |].
      split; [exists (replicate n index ++ ext);
              by rewrite Hext, Hs1, <- (assoc_L (++)) |].
      destruct Hcases as [[Hst Hall] | (idx & sent0 & Hidx & Hst & Hs0 & Hno)].
      * left. split; [exact Hst |]. intros i Hi.
        destruct (decide (i = index)) as [-> | Hne].
        -- exists (length sent + (n - 1))%nat. split; [| exact Hlast].
           rewrite Hext, Hs1, <- (assoc_L (++)).
           rewrite lookup_app_r by lia.
           rewrite lookup_app_l by (rewrite length_replicate; lia).
           apply lookup_replicate_2. lia.
        -- apply Hall. lia.
      * right. exists idx, sent0. split; [lia |]. done.
    + split; [exact Hord |]. split; [by exists (replicate n index) |].
      right. exists index, sent. rewrite <- (Hfail eq_refl).
      split; [lia |]. split; [done |]. split; [exact Hs1 |].
      intros j Hj. destruct (decide (j = n - 1)%nat) as [-> | Hne].
      * exact Hlast.
      * apply Hbad. lia.
Qed.

(** A page whose sends are all refused is sent [retries_left + 1]
    times and given up. *)
Lemma send_page_all_refused (retries_left index : nat) (sent : list nat) :
  (∀ j : nat, (j ≤ retries_left)%nat →
     acked (device_ack (length sent + j)) index = false) →
  send_page index retries_left sent
    = (sent ++ replicate (S retries_left) index, false).
Proof.
  revert sent. induction retries_left as [|r IH]; intros sent Hno;
    cbn [Protocol.send_page];
    pose proof (Hno 0%nat ltac:(lia)) as H0;
    rewrite Nat.add_0_r in H0; rewrite H0.
  - done.
  - rewrite IH.
    + by rewrite <- (assoc_L (++)).
    + intros j Hj. rewrite length_app. cbn [length].
      replace (length sent + 1 + j)%nat with (length sent + S j)%nat by lia.
      apply Hno. lia.
Qed.

End PageLoopFacts.

(** C6: in every session the log of the page indices sent starts with
    page 0, and each send of a page is followed by the same page when
    the answer to it was missing or carried another index, and by the
    next page when it was acknowledged: no gap, and no repetition but a
    retry.  The page loop ends in Verifying with every page
    acknowledged, or in Failed with [PageTransferFailed index] after the
    [retryLimit + 1] sends of that page were all refused; and a page
    whose sends are all refused always ends the loop that way. *)
Theorem page_indices_in_order (pageCount retryLimit : nat)
    (device_ack : nat → Protocol.Ack) :
  let sent := (Protocol.transfer pageCount retryLimit device_ack).1 in
  let st := (Protocol.transfer pageCount retryLimit device_ack).2 in
  Protocol.in_page_order device_ack sent ∧
  (∀ a : nat, sent !! 0%nat = Some a → a = 0%nat) ∧
  (∀ k a b : nat,
     sent !! k = Some a → sent !! S k = Some b →
     b = a ∧ Protocol.acked (device_ack k) a = false ∨
     b = S a ∧ Protocol.acked (device_ack k) a = true) ∧
  (st = Protocol.Verifying ∧
   (∀ i : nat, (i < pageCount)%nat →
      ∃ k : nat, sent !! k = Some i ∧ Protocol.acked (device_ack k) i = true)
   ∨
   ∃ (idx : nat) (sent0 : list nat),
     (idx < pageCount)%nat ∧
     st = Protocol.Failed (Protocol.PageTransferFailed idx) ∧
     sent = sent0 ++ replicate (S retryLimit) idx ∧
     ∀ j : nat, (j < S retryLimit)%nat →
       Protocol.acked (device_ack (length sent0 + j)%nat) idx = false) ∧
  (∀ (remaining index : nat) (log : list nat),
     (∀ j : nat, (j ≤ retryLimit)%nat →
        Protocol.acked (device_ack (length log + j)%nat) index = false) →
     Protocol.transfer_pages retryLimit device_ack (S remaining) index log
       = (log ++ replicate (S retryLimit) index,
          Protocol.Failed (Protocol.PageTransferFailed index))).
Proof.
  cbv zeta. unfold Protocol.transfer.
  assert (Protocol.may_send device_ack [] 0) as Hm.
  { split; [split |]; [intros a H | intros k a b H _ |]; done. }
  destruct (transfer_pages_spec retryLimit device_ack pageCount 0 [] Hm)
    as (Hord & _ & Hcases).
  split; [exact Hord |]. split; [exact (proj1 Hord) |].
  split; [exact (proj2 Hord) |]. split.
  - destruct Hcases as [[Hst Hall] | (idx & sent0 & Hidx & Hrest)].
    + left. split; [exact Hst |]. intros i Hi. apply Hall. lia.
    + right. exists idx, sent0. split; [lia | exact Hrest].
  - intros remaining index log Hno. cbn [Protocol.transfer_pages].
    by rewrite (send_page_all_refused device_ack retryLimit index log Hno).
Qed.

Lemma page_indices_in_order_witness :
  (Protocol.transfer 3 3 example_device).1 = [0; 1; 1; 2]%nat ∧
  (1%nat = 1%nat ∧ Protocol.acked (example_device 1) 1 = false ∨
   1%nat = 2%nat ∧ Protocol.acked (example_device 1) 1 = true) ∧
  Protocol.transfer_pages 2 (λ _, Protocol.NoAck) 1 0 []
    = ([0; 0; 0]%nat, Protocol.Failed (Protocol.PageTransferFailed 0)).
Proof.
  split; [reflexivity |]. split.
  - destruct (page_indices_in_order 3 3 example_device) as (_ & _ & Hadj & _).
    exact (Hadj 1%nat 1%nat 1%nat eq_refl eq_refl).
  - destruct (page_indices_in_order 1 2 (λ _, Protocol.NoAck))
      as (_ & _ & _ & _ & Hfail).
    apply (Hfail 0%nat 0%nat []). by intros j _.
Defined.

(** * More of the widget *)

(** ** Browsing for a file *)

(** X1: a dismissed file dialog leaves the widget as it is.  A chosen
    file becomes the file location and nothing else changes; the next
    press on Upload that passes the port check opens exactly this file,
    and starts the uploader if it can be opened, or reports
    "File Not Found" without any event if it cannot. *)
Theorem browse_then_upload (env : Env) (g : GUI) (fileName : string) :
  on_browse_btn_pressed "" g = g ∧
  (fileName ≠ "" →
   on_browse_btn_pressed fileName g = set_fileLocation fileName g ∧
   (portAvailable (comports env) (port g) = true →
    let g' := on_upload_btn_pressed env (on_browse_btn_pressed fileName g) in
    if can_open env fileName
    then ∃ cmd : string,
           events g' = events g ++ [EvOpen fileName; EvClose fileName; EvStart cmd] ∧
           process g' = Some (mkProcess cmd) ∧
           fileLocation_lineedit g' = fileName
    else status g' = "File Not Found" ∧ events g' = events g ∧
         process g' = process g)).
Proof.
  split; [done |]. intros Hne.
  assert (on_browse_btn_pressed fileName g = set_fileLocation fileName g) as ->.
  { unfold on_browse_btn_pressed. by destruct (decide (fileName = "")). }
  split; [done |]. intros Hp. cbv zeta.
  destruct (can_open env fileName) eqn:Hf.
  - rewrite (upload_started env (set_fileLocation fileName g) Hp Hf).
    cbn [events process fileLocation_lineedit set_fileLocation]. by eexists.
  - unfold on_upload_btn_pressed.
    change (port (set_fileLocation fileName g)) with (port g).
    rewrite Hp. cbn [negb fileLocation_lineedit set_fileLocation]. by rewrite Hf.
Qed.

Lemma browse_then_upload_witness :
  let g := on_browse_btn_pressed "D:/new.bin" example_gui in
  fileLocation_lineedit g = "D:/new.bin" ∧
  status (on_upload_btn_pressed example_env g) = "File Not Found".
Proof.
  cbv zeta.
  destruct (browse_then_upload example_env example_gui "D:/new.bin")
    as (_ & H).
  destruct (H ltac:(done)) as (Hb & Hu). split.
  - by rewrite Hb.
  - exact (proj1 (Hu eq_refl)).
Defined.

(** ** Refreshing the ports *)

(** The selection after the port box was filled: the first port. *)
Lemma update_com_ports_port (env : Env) (g : GUI) :
  port (update_com_ports env g) =
  match comports env with
  | [] => VNone
  | p :: _ => VStr (device p)
  end.
Proof.
  unfold port, update_com_ports. cbn [set_port_combobox port_combobox].
  destruct (addItem_foldl (gen_serial_ports env)
              (Combo.clear (port_combobox g))) as [Hi Hc].
  unfold Combo.currentData. rewrite Hi, Hc. unfold gen_serial_ports.
  cbn [Combo.clear items currentIndex app].
  by destruct (comports env) as [|p ps].
Qed.

(** X2: a refresh forgets the earlier selection and selects the first
    enumerated port, or nothing when no port is found; what was in the
    box before plays no role.  A press on Upload right after it, with
    the same ports enumerated, passes the port check exactly when there
    is a port: with none the status is "Port No Longer Available". *)
Theorem refresh_then_upload (env : Env) (g : GUI) :
  let g1 := on_refresh_btn_pressed env g in
  port g1 = (if comports env is p :: _ then VStr (device p) else VNone) ∧
  (∀ env0 : Env,
     on_refresh_btn_pressed env (on_refresh_btn_pressed env0 g) = g1) ∧
  (portAvailable (comports env) (port g1) = true ↔ comports env ≠ []) ∧
  (comports env = [] →
     on_upload_btn_pressed env g1 = setText "Port No Longer Available" g1).
Proof.
  cbv zeta. unfold on_refresh_btn_pressed.
  pose proof (update_com_ports_port env g) as Hport.
  split; [by rewrite Hport; destruct (comports env) |].
  split; [done |].
  assert (portAvailable (comports env) (port (update_com_ports env g)) = true
          ↔ comports env ≠ []) as Hiff.
  { rewrite Hport, portAvailable_spec. destruct (comports env) as [|p ps].
    - split; [intros (q & Hq & _); by apply elem_of_nil in Hq | done].
    - split; [done | intros _]. exists p. split; [left | done]. }
  split; [exact Hiff |].
  intros Hnil. unfold on_upload_btn_pressed.
  destruct (portAvailable (comports env) (port (update_com_ports env g))) eqn:E;
    [| done].
  by destruct (proj1 Hiff eq_refl).
Qed.

Lemma refresh_then_upload_witness :
  let env := mkEnv [] (λ _, true) in
  status (on_upload_btn_pressed env (on_refresh_btn_pressed env example_gui))
  = "Port No Longer Available".
Proof.
  cbv zeta.
  destruct (refresh_then_upload (mkEnv [] (λ _, true)) example_gui)
    as (_ & _ & _ & H).
  by rewrite (H eq_refl).
Defined.

(** ** More on the settings *)

(** X3: saving writes the three keys and no other: every other key of
    the store keeps its value, the keys of the store are the old ones
    and the three, and of two saves in a row the later one decides: the
    store is the same as if only the second widget had been saved. *)
Theorem save_settings_frame (g1 g2 : GUI) (settings : QSettings) :
  (∀ key : string,
     key ∉ [SETTING_PORT_NAME; SETTING_FILE_LOCATION; SETTING_BAUD_RATE] →
     _save_settings g1 settings !! key = settings !! key) ∧
  dom (_save_settings g1 settings)
    = {[SETTING_PORT_NAME; SETTING_FILE_LOCATION; SETTING_BAUD_RATE]} ∪ dom settings ∧
  _save_settings g2 (_save_settings g1 settings) = _save_settings g2 settings.
Proof.
  unfold _save_settings, setValue. cbv zeta. split; [| split].
  - intros key Hkey. rewrite !not_elem_of_cons in Hkey.
    destruct Hkey as (H1 & H2 & H3 & _).
    by rewrite !lookup_insert_ne.
  - rewrite !dom_insert_L. apply set_eq. intros key.
    rewrite !elem_of_union, !elem_of_singleton. tauto.
  - apply map_eq. intros key. rewrite !lookup_insert.
    by repeat case_decide.
Qed.

Lemma save_settings_frame_witness :
  _save_settings example_gui {["geometry" := VInt 7]} !! "geometry"
  = Some (VInt 7).
Proof.
  destruct (save_settings_frame example_gui example_gui {["geometry" := VInt 7]})
    as (H & _).
  rewrite (H "geometry"); [done |].
  rewrite !not_elem_of_cons. repeat split; try done. apply not_elem_of_nil.
Defined.

(** What loading leaves alone. *)
Lemma load_settings_frame (settings : QSettings) (g g1 : GUI) :
  _load_settings settings g = Some g1 →
  status g1 = status g ∧ process g1 = process g ∧
  progressCount g1 = progressCount g ∧ events g1 = events g ∧
  items (port_combobox g1) = items (port_combobox g) ∧
  items (baud_combobox g1) = items (baud_combobox g).
Proof.
  unfold _load_settings. cbv zeta.
  destruct (value SETTING_FILE_LOCATION settings);
    cbn [mbind option_bind]; intros H; [| | discriminate H];
    injection H as <-;
    cbn [set_baud_combobox set_fileLocation set_port_combobox port_combobox
         baud_combobox status process progressCount events];
    by rewrite !restore_selection_items.
Qed.

(** X4: a key that is missing from the store leaves its part of the
    widget as it is: on a first run, with none of the three keys, the
    widget is unchanged.  Whatever the store holds, loading changes
    neither the items of the boxes, nor the status, the process, the
    progress counter or the events. *)
Theorem load_settings_missing_keys (settings : QSettings) (g : GUI) :
  (settings !! SETTING_PORT_NAME = None →
   settings !! SETTING_FILE_LOCATION = None →
   settings !! SETTING_BAUD_RATE = None →
   _load_settings settings g = Some g) ∧
  (∀ g1 : GUI, _load_settings settings g = Some g1 →
     (settings !! SETTING_PORT_NAME = None →
        port_combobox g1 = port_combobox g) ∧
     (settings !! SETTING_FILE_LOCATION = None →
        fileLocation_lineedit g1 = fileLocation_lineedit g) ∧
     (settings !! SETTING_BAUD_RATE = None →
        baud_combobox g1 = baud_combobox g) ∧
     status g1 = status g ∧ process g1 = process g ∧
     progressCount g1 = progressCount g ∧ events g1 = events g ∧
     items (port_combobox g1) = items (port_combobox g) ∧
     items (baud_combobox g1) = items (baud_combobox g)).
Proof.
  split.
  - intros Hp Hm Hb. unfold _load_settings, value. rewrite Hp, Hm, Hb.
    by destruct g.
  - intros g1 Hload.
    split; [| split; [| split; [| exact (load_settings_frame _ _ _ Hload)]]];
      intros Hnone; revert Hload; unfold _load_settings, value; cbv zeta;
      rewrite ?Hnone; cbn [default];
      try (destruct (default VNone (settings !! SETTING_FILE_LOCATION)));
      cbn [mbind option_bind]; intros H; try discriminate H;
      by injection H as <-.
Qed.

Lemma load_settings_missing_keys_witness :
  init example_env ∅ = Some example_gui_startup.
Proof.
  unfold init.
  apply (proj1 (load_settings_missing_keys ∅ example_gui_startup)); done.
Defined.

(** X5: loading a store and saving again gives the store back, when the
    store holds a text under the key of the file location and, under the
    two other keys, values that the boxes have among their items. *)
Theorem load_then_save (settings : QSettings) (g : GUI)
    (saved_port saved_baud : QVariant) (saved_file : string) :
  settings !! SETTING_PORT_NAME = Some saved_port →
  settings !! SETTING_FILE_LOCATION = Some (VStr saved_file) →
  settings !! SETTING_BAUD_RATE = Some saved_baud →
  saved_port ≠ VNone → saved_port ∈ (items (port_combobox g)).*2 →
  saved_baud ≠ VNone → saved_baud ∈ (items (baud_combobox g)).*2 →
  ∃ g1 : GUI,
    _load_settings settings g = Some g1 ∧
    port g1 = saved_port ∧ fileLocation_lineedit g1 = saved_file ∧
    baudRate g1 = saved_baud ∧
    closeEvent g1 settings = settings.
Proof.
  intros Hp Hm Hb Hpn Hpi Hbn Hbi.
  destruct (restore_selection_found saved_port (port_combobox g) Hpn Hpi)
    as (Hport & _).
  destruct (restore_selection_found saved_baud (baud_combobox g) Hbn Hbi)
    as (Hbaud & _).
  eexists. split.
  { unfold _load_settings, value. rewrite Hp, Hm, Hb.
    unfold default. cbn [from_option id mbind option_bind]. reflexivity. }
  unfold port, baudRate, closeEvent, _save_settings, setValue.
  cbn [set_baud_combobox set_fileLocation set_port_combobox port_combobox
       baud_combobox fileLocation_lineedit default].
  rewrite Hport, Hbaud. split; [done |]. split; [done |]. split; [done |].
  unfold port, baudRate.
  cbn [set_baud_combobox set_fileLocation set_port_combobox port_combobox
       baud_combobox fileLocation_lineedit default].
  rewrite Hport, Hbaud.
  rewrite (insert_id settings SETTING_PORT_NAME saved_port Hp).
  rewrite (insert_id settings SETTING_FILE_LOCATION (VStr saved_file) Hm).
  by rewrite (insert_id settings SETTING_BAUD_RATE saved_baud Hb).
Qed.

Lemma load_then_save_witness :
  ∃ g1 : GUI,
    init example_env example_settings = Some g1 ∧
    port g1 = VStr "COM7" ∧ baudRate g1 = VInt 115200 ∧
    closeEvent g1 example_settings = example_settings.
Proof.
  destruct (load_then_save example_settings example_gui_startup
              (VStr "COM7") (VInt 115200) "C:/fw/app.bin")
    as (g1 & Hload & Hport & _ & Hbaud & Hsave); try done.
  - vm_compute. repeat constructor.
  - vm_compute. repeat constructor.
  - by exists g1.
Defined.

(** ** The widget from startup on *)

Lemma find_from_below (data : QVariant) (i : Z) (l : list (string * QVariant)) :
  0 ≤ i → Combo.find_from data i l > -1 →
  i ≤ Combo.find_from data i l < i + Z.of_nat (length l).
Proof.
  intros Hi Hf.
  destruct (find_from_lookup data i l Hi Hf) as [t Ht].
  apply lookup_lt_Some in Ht.
  destruct (find_from_range data i l Hi) as [E | E]; lia.
Qed.

(** Restoring a selection keeps a valid current index valid. *)
Lemma restore_selection_index (saved : QVariant) (cb : QComboBox) :
  0 ≤ currentIndex cb < Z.of_nat (length (items cb)) →
  0 ≤ currentIndex (restore_selection saved cb)
    < Z.of_nat (length (items cb)).
Proof.
  intros Hcb. unfold restore_selection, Combo.findData.
  destruct (decide (saved = VNone)); [done |].
  destruct (decide (Combo.find_from saved 0 (items cb) > -1)) as [Hf |];
    [| done].
  cbn [Combo.setCurrentIndex currentIndex].
  pose proof (find_from_below saved 0 (items cb) ltac:(lia) Hf). lia.
Qed.

(** With the three rates in the box and one of them current, the baud
    rate is one of the three numbers. *)
Lemma baud_rate_cases (g : GUI) :
  items (baud_combobox g) = baud_items →
  0 ≤ currentIndex (baud_combobox g) < 3 →
  baudRate g ∈ [VInt 921600; VInt 460800; VInt 115200] ∧
  py_str (baudRate g) ∈ ["921600"; "460800"; "115200"].
Proof.
  intros Hi Hc. unfold baudRate, Combo.currentData. rewrite Hi.
  destruct (decide (0 ≤ currentIndex (baud_combobox g))); [| lia].
  assert (currentIndex (baud_combobox g) = 0 ∨
          currentIndex (baud_combobox g) = 1 ∨
          currentIndex (baud_combobox g) = 2) as [-> | [-> | ->]] by lia;
    (split; [cbn | vm_compute]; repeat constructor).
Qed.

Lemma uploads_trace_app (l1 l2 : list (string * string)) :
  uploads_trace (l1 ++ l2) = uploads_trace l1 ++ uploads_trace l2.
Proof.
  induction l1 as [|[path cmd] l1 IH]; [done |].
  cbn [app uploads_trace]. by rewrite IH.
Qed.

(** The parser changes the status and the counter only. *)
Lemma parser_frame (result : string) (g : GUI) :
  let g' := onReadyReadStandardOutput result g in
  fileLocation_lineedit g' = fileLocation_lineedit g ∧
  port_combobox g' = port_combobox g ∧ baud_combobox g' = baud_combobox g ∧
  process g' = process g ∧ events g' = events g.
Proof.
  cbv zeta. unfold onReadyReadStandardOutput.
  destruct (str_in "complete" result); [done |].
  destruct (str_in "failed" result); [done |].
  destruct (str_in "open" result); [done |].
  by rewrite iter_dots.
Qed.

(** Loading the settings keeps a valid current baud index valid. *)
Lemma load_settings_baud_index (settings : QSettings) (g g1 : GUI) :
  _load_settings settings g = Some g1 →
  0 ≤ currentIndex (baud_combobox g) < Z.of_nat (length (items (baud_combobox g))) →
  0 ≤ currentIndex (baud_combobox g1) < Z.of_nat (length (items (baud_combobox g))).
Proof.
  unfold _load_settings. cbv zeta. intros Hload Hvalid. revert Hload.
  destruct (value SETTING_FILE_LOCATION settings);
    cbn [mbind option_bind]; intros H; [| | discriminate H];
    injection H as <-;
    cbn [set_baud_combobox set_fileLocation set_port_combobox baud_combobox];
    by apply restore_selection_index.
Qed.

Lemma init_invariant (env : Env) (settings : QSettings) (g : GUI) :
  init env settings = Some g → widget_invariant g.
Proof.
  unfold init. intros Hload.
  destruct (load_settings_frame _ _ _ Hload) as (_ & Hproc & Hpc & Hev & _ & Hbi).
  pose proof (load_settings_baud_index _ _ _ Hload) as Hidx.
  unfold widget_invariant. rewrite Hpc, Hbi, Hev, Hproc.
  split; [done |]. split; [done |]. split.
  - apply Hidx. done.
  - exists []. by split.
Qed.

(** Closes the cases in which a slot leaves alone what the invariant
    speaks of. *)
Ltac invariant_kept uploads :=
  unfold widget_invariant;
  (split; [assumption |]); (split; [assumption |]); (split; [assumption |]);
  exists uploads; (split; [assumption |]); (split; assumption).

Lemma dispatch_invariant (a : Action) (g : GUI) :
  widget_invariant g → widget_invariant (dispatch a g).
Proof.
  intros (Hpc & Hbi & Hbc & uploads & Hev & Hproc & Hcmds).
  destruct a as [env | env | fileName | i | i | result | error];
    cbn [dispatch].
  - destruct (portAvailable (comports env) (port g)) eqn:Hp.
    + destruct (can_open env (fileLocation_lineedit g)) eqn:Hf.
      * rewrite (upload_started env g Hp Hf). unfold widget_invariant.
        cbn [progressCount baud_combobox events process].
        split; [done |]. split; [done |]. split; [done |].
        exists (uploads ++ [(fileLocation_lineedit g,
                  "artemis_svl.exe " +:+ py_str (port g) +:+ " -f" +:+ dquote +:+
                  fileLocation_lineedit g +:+ dquote +:+ " -b" +:+
                  py_str (baudRate g))]).
        rewrite uploads_trace_app, Hev, last_snoc.
        split; [done |]. split; [done |].
        apply Forall_app. split; [exact Hcmds |].
        constructor; [| constructor]. cbn [fst snd].
        exists (py_str (port g)), (py_str (baudRate g)).
        split; [| done]. by apply baud_rate_cases.
      * unfold on_upload_btn_pressed. rewrite Hp, Hf. cbn [negb].
        invariant_kept uploads.
    + unfold on_upload_btn_pressed. rewrite Hp. cbn [negb].
      invariant_kept uploads.
  - invariant_kept uploads.
  - unfold on_browse_btn_pressed. destruct (decide (fileName = ""));
      invariant_kept uploads.
  - invariant_kept uploads.
  - unfold widget_invariant. cbn [set_baud_combobox progressCount
      baud_combobox events process]. unfold choose. rewrite Hbi.
    destruct (decide (i < length baud_items)%nat) as [Hi |];
      cbn [Combo.setCurrentIndex items currentIndex];
      (split; [done |]); (split; [done |]);
      (split; [cbn [baud_items length] in *; lia |]); by exists uploads.
  - destruct (process g) eqn:Hpr; rewrite <- Hpr in Hproc;
      [| invariant_kept uploads].
    destruct (parser_frame result g) as (_ & _ & Hb & Hp & He).
    pose proof (parser_progressCount_le result g).
    unfold widget_invariant. rewrite Hb, Hp, He.
    split; [lia |]. split; [done |]. split; [done |].
    by exists uploads.
  - destruct (process g) eqn:Hpr; rewrite <- Hpr in Hproc;
      invariant_kept uploads.
Qed.

Lemma run_invariant (actions : list Action) (g : GUI) :
  widget_invariant g → widget_invariant (run actions g).
Proof.
  revert g. induction actions as [|a actions IH]; intros g Hg; [done |].
  cbn [run foldl]. apply IH. by apply dispatch_invariant.
Qed.

(** Restoring a selection either leaves the box alone or makes the
    saved value, which is then not [None], the current data. *)
Lemma restore_selection_cases (saved : QVariant) (cb : QComboBox) :
  restore_selection saved cb = cb ∨
  saved ≠ VNone ∧ saved ∈ (items cb).*2 ∧
  Combo.currentData (restore_selection saved cb) = saved.
Proof.
  destruct (decide (saved = VNone)) as [-> | Hn]; [by left |].
  destruct (decide (saved ∈ (items cb).*2)) as [Hin | Hout].
  - right. split; [done |]. split; [done |].
    by apply restore_selection_found.
  - left. by apply restore_selection_missing.
Qed.

Lemma example_startup : init example_env ∅ = Some example_gui_startup.
Proof. reflexivity. Qed.

(** X6: whenever the construction of the widget succeeds, the status is
    a single space, no process is held, nothing has happened yet and
    the progress counter is 1; the baud box holds the three rates and
    one of them is selected, whatever the settings say; and a port is
    selected exactly when at least one port was enumerated. *)
Theorem startup_state (env : Env) (settings : QSettings) (g : GUI) :
  init env settings = Some g →
  status g = " " ∧ process g = None ∧ events g = [] ∧ progressCount g = 1 ∧
  items (baud_combobox g) = baud_items ∧
  baudRate g ∈ [VInt 921600; VInt 460800; VInt 115200] ∧
  (port g = VNone ↔ comports env = []).
Proof.
  intros Hinit.
  destruct (init_invariant env settings g Hinit) as (_ & Hbi & Hbc & _).
  unfold init in Hinit.
  destruct (load_settings_frame _ _ _ Hinit) as (Hst & Hproc & Hpc & Hev & _ & _).
  split; [by rewrite Hst |]. split; [by rewrite Hproc |].
  split; [by rewrite Hev |]. split; [by rewrite Hpc |].
  split; [exact Hbi |]. split; [by apply baud_rate_cases |].
  set (g0 := mkGUI "" Combo.empty Combo.empty " " None 1 []) in *.
  assert (port_combobox g
          = restore_selection (value SETTING_PORT_NAME settings)
              (port_combobox (update_com_ports env g0))) as Hbox.
  { revert Hinit. unfold _load_settings. cbv zeta.
    destruct (value SETTING_FILE_LOCATION settings);
      cbn [mbind option_bind]; intros H; [| | discriminate H];
      by injection H as <-. }
  pose proof (update_com_ports_port env g0) as Hfirst.
  unfold port in *. rewrite Hbox.
  destruct (restore_selection_cases (value SETTING_PORT_NAME settings)
              (port_combobox (update_com_ports env g0)))
    as [-> | (Hn & Hin & ->)].
  - rewrite Hfirst. by destruct (comports env).
  - split; [done |]. intros Hnil. exfalso.
    destruct (update_com_ports_items env g0) as (Hitems & _).
    cbv zeta in Hitems. rewrite Hitems, Hnil in Hin.
    by apply elem_of_nil in Hin.
Qed.

Lemma startup_state_witness :
  baudRate example_gui_startup ∈ [VInt 921600; VInt 460800; VInt 115200] ∧
  (port example_gui_startup = VNone ↔ comports example_env = []).
Proof.
  destruct (startup_state example_env ∅ example_gui_startup example_startup)
    as (_ & _ & _ & _ & _ & Hb & Hp).
  by split.
Defined.

(** X7: from startup on, whatever the user does and whatever the
    uploader writes, the progress counter is never negative; so
    [int(progressCount / 3)] is the floor of the third, and the loop of
    the parser runs that many times. *)
Theorem progress_counter_not_negative (env : Env) (settings : QSettings)
    (g : GUI) (actions : list Action) :
  init env settings = Some g →
  0 ≤ progressCount (run actions g) ∧
  progressCount (run actions g) ÷ 3 = progressCount (run actions g) `div` 3.
Proof.
  intros Hinit.
  destruct (run_invariant actions g (init_invariant env settings g Hinit))
    as (Hpc & _).
  split; [exact Hpc |]. apply Z.quot_div_nonneg; lia.
Qed.

Lemma progress_counter_not_negative_witness :
  0 ≤ progressCount
        (run [PressUpload example_env; ReadyReadStandardOutput "####"]
             example_gui_startup).
Proof.
  exact (proj1 (progress_counter_not_negative example_env ∅ example_gui_startup
                  [PressUpload example_env; ReadyReadStandardOutput "####"]
                  example_startup)).
Defined.

(** In the trace of a list of uploads an open is followed by the close
    of the same file and by a start. *)
Lemma uploads_trace_open (uploads : list (string * string)) (k : nat) (path : string) :
  uploads_trace uploads !! k = Some (EvOpen path) →
  uploads_trace uploads !! S k = Some (EvClose path) ∧
  ∃ cmd : string,
    uploads_trace uploads !! S (S k) = Some (EvStart cmd) ∧
    (path, cmd) ∈ uploads.
Proof.
  revert k. induction uploads as [|[p c] uploads IH]; intros k Hk; [done |].
  cbn [uploads_trace] in *.
  destruct k as [|[|[|k]]]; cbn in Hk; try discriminate Hk.
  - injection Hk as ->. split; [done |]. exists c. split; [done | left].
  - destruct (IH k Hk) as (Hc & cmd & Hs & Hin).
    split; [exact Hc |]. exists cmd. split; [exact Hs | by right].
Qed.

(** Every start in the trace belongs to one of the uploads. *)
Lemma uploads_trace_start (uploads : list (string * string)) (cmd : string) :
  EvStart cmd ∈ uploads_trace uploads → ∃ path : string, (path, cmd) ∈ uploads.
Proof.
  induction uploads as [|[p c] uploads IH]; cbn [uploads_trace].
  - by intros ?%elem_of_nil.
  - rewrite !elem_of_cons. intros [H | [H | [H | H]]]; try discriminate H.
    + injection H as ->. exists p. left.
    + destruct (IH H) as [path Hin]. exists path. by right.
Qed.

(** X8: from startup on, whatever happens, a file that the widget opens
    is closed by the very next event and the uploader is started right
    after; the events come in threes, one three per upload started; and
    the widget holds no process exactly as long as nothing has
    happened. *)
Theorem files_closed_before_start (env : Env) (settings : QSettings)
    (g : GUI) (actions : list Action) :
  init env settings = Some g →
  let trace := events (run actions g) in
  (∀ (k : nat) (path : string),
     trace !! k = Some (EvOpen path) →
     trace !! S k = Some (EvClose path) ∧
     ∃ cmd : string, trace !! S (S k) = Some (EvStart cmd)) ∧
  (∃ uploads : list (string * string),
     trace = uploads_trace uploads ∧
     length trace = (3 * length uploads)%nat) ∧
  (process (run actions g) = None ↔ trace = []).
Proof.
  intros Hinit. cbv zeta.
  destruct (run_invariant actions g (init_invariant env settings g Hinit))
    as (_ & _ & _ & uploads & Hev & Hproc & _).
  rewrite Hev, Hproc. split; [| split].
  - intros k path Hk.
    destruct (uploads_trace_open uploads k path Hk) as (Hc & cmd & Hs & _).
    split; [exact Hc | by exists cmd].
  - exists uploads. split; [done |].
    clear. induction uploads as [|[p c] uploads IH]; [done |].
    cbn [uploads_trace length]. rewrite IH. lia.
  - destruct uploads as [|[p c] uploads] using rev_ind; [done |].
    rewrite last_snoc, uploads_trace_app. cbn [fmap option_fmap option_map].
    split; [done |]. intros H. apply app_eq_nil in H as [_ H]. discriminate H.
Qed.

Lemma files_closed_before_start_witness :
  events (run [PressBrowse "C:/fw/app.bin"; PressUpload example_env;
               ReadyReadStandardOutput "###"; PressUpload example_env]
              example_gui_startup) !! 4%nat
  = Some (EvClose "C:/fw/app.bin").
Proof.
  destruct (files_closed_before_start example_env ∅ example_gui_startup
              [PressBrowse "C:/fw/app.bin"; PressUpload example_env;
               ReadyReadStandardOutput "###"; PressUpload example_env]
              example_startup) as (Hopen & _ & _).
  exact (proj1 (Hopen 3%nat "C:/fw/app.bin" eq_refl)).
Defined.

(** X9: from startup on, whatever happens, every command line that the
    widget starts is "artemis_svl.exe ", the text of the selected port,
    " -f", the path of a file that was opened between double quotes,
    " -b" and one of the three baud rates 921600, 460800 and 115200. *)
Theorem commands_well_formed (env : Env) (settings : QSettings)
    (g : GUI) (actions : list Action) (cmd : string) :
  init env settings = Some g →
  EvStart cmd ∈ events (run actions g) →
  ∃ dev path baud : string,
    EvOpen path ∈ events (run actions g) ∧
    baud ∈ ["921600"; "460800"; "115200"] ∧
    cmd = "artemis_svl.exe " +:+ dev +:+ " -f" +:+ dquote +:+ path +:+
          dquote +:+ " -b" +:+ baud.
Proof.
  intros Hinit Hin.
  destruct (run_invariant actions g (init_invariant env settings g Hinit))
    as (_ & _ & _ & uploads & Hev & _ & Hcmds).
  rewrite Hev in *.
  destruct (uploads_trace_start uploads cmd Hin) as [path Hup].
  rewrite Forall_forall in Hcmds.
  destruct (Hcmds (path, cmd) Hup) as (dev & baud & Hbaud & Hcmd).
  exists dev, path, baud. split; [| by split].
  clear - Hup. induction uploads as [|[p c] uploads IH].
  - by apply elem_of_nil in Hup.
  - cbn [uploads_trace]. apply elem_of_cons in Hup as [E | Hup].
    + injection E as <- <-. left.
    + do 3 right. by apply IH.
Qed.

Lemma commands_well_formed_witness :
  ∃ dev path baud : string,
    baud ∈ ["921600"; "460800"; "115200"] ∧
    "artemis_svl.exe COM7 -f" +:+ dquote +:+ "C:/fw/app.bin" +:+ dquote +:+
      " -b460800"
    = "artemis_svl.exe " +:+ dev +:+ " -f" +:+ dquote +:+ path +:+
      dquote +:+ " -b" +:+ baud.
Proof.
  destruct (commands_well_formed example_env ∅ example_gui_startup
              [PressBrowse "C:/fw/app.bin"; ChoosePort 1; ChooseBaud 1;
               PressUpload example_env]
              ("artemis_svl.exe COM7 -f" +:+ dquote +:+ "C:/fw/app.bin" +:+
               dquote +:+ " -b460800")
              example_startup)
    as (dev & path & baud & _ & Hbaud & Hcmd).
  - vm_compute. repeat constructor.
  - by exists dev, path, baud.
Defined.

(** ** Progress over several chunks *)

Lemma count_append (c : ascii) (s1 s2 : string) :
  count c (s1 +:+ s2) = (count c s1 + count c s2)%nat.
Proof.
  induction s1 as [|b s1 IH]; [done |].
  rewrite append_cons. cbn [count]. rewrite IH. lia.
Qed.

Lemma dots_add (m n : nat) : dots (m + n) = dots m +:+ dots n.
Proof.
  induction m as [|m IH]; [done |].
  cbn [Nat.add dots]. by rewrite IH, append_assoc.
Qed.

(** A token-free chunk takes the fourth way of the parser. *)
Lemma token_free_progress (result : string) (g : GUI) :
  token_free result = true →
  onReadyReadStandardOutput result g =
    let n := progressCount g + Z.of_nat (count "#" result) in
    setText (status g +:+ dots (Z.to_nat (n ÷ 3))) (set_progressCount n g).
Proof.
  unfold token_free. rewrite !andb_true_iff, !negb_true_iff.
  intros [[H1 H2] H3]. by apply parser_progress_branch.
Qed.

(** X10: as long as no chunk contains one of the three tokens, the
    progress counter advances by the number of '#' that the uploader
    wrote, however its output is cut into chunks; and these chunks
    neither start a process nor add an event. *)
Theorem progress_counts_hashes (chunks : list string) (g : GUI) :
  Forall (λ result, token_free result = true) chunks →
  progressCount (read_chunks chunks g)
    = progressCount g + Z.of_nat (count "#" (join_chunks chunks)) ∧
  events (read_chunks chunks g) = events g ∧
  process (read_chunks chunks g) = process g.
Proof.
  intros Hfree. revert g.
  induction Hfree as [|result chunks Hr _ IH]; intros g.
  - cbn [read_chunks foldl join_chunks foldr count]. split; [lia | done].
  - cbn [read_chunks foldl join_chunks foldr].
    destruct (IH (onReadyReadStandardOutput result g)) as (Hpc & Hev & Hproc).
    unfold read_chunks in Hpc, Hev, Hproc. rewrite Hpc, Hev, Hproc.
    destruct (parser_frame result g) as (_ & _ & _ & -> & ->).
    rewrite (token_free_progress result g Hr). cbv zeta.
    cbn [setText set_progressCount progressCount].
    fold (join_chunks chunks). rewrite count_append. split; [lia | done].
Qed.

Lemma progress_counts_hashes_witness :
  progressCount (read_chunks ["##"; ""; "#"; "####"] example_gui) = 8.
Proof.
  refine (proj1 (progress_counts_hashes ["##"; ""; "#"; "####"] example_gui _)).
  repeat constructor.
Defined.

(** X11: the full stops that the status shows are not the progress.  Over
    chunks without tokens the status only gets full stops added, and
    their number depends on how the output is cut: it is at least the
    third of the counter reached and at most that third times the
    number of chunks. *)
Theorem status_grows_with_chunks (chunks : list string) (g : GUI) :
  0 ≤ progressCount g →
  Forall (λ result, token_free result = true) chunks →
  let g' := read_chunks chunks g in
  let third := Z.to_nat (progressCount g' ÷ 3) in
  ∃ n : nat,
    status g' = status g +:+ dots n ∧
    (n ≤ length chunks * third)%nat ∧
    (chunks ≠ [] → third ≤ n)%nat.
Proof.
  intros Hpc Hfree. cbv zeta. revert g Hpc.
  induction Hfree as [|result chunks Hr _ IH]; intros g Hpc.
  - exists 0%nat. cbn [read_chunks foldl dots]. rewrite append_nil_r.
    split; [done |]. split; [cbn [length]; lia | done].
  - cbn [read_chunks foldl].
    set (g1 := onReadyReadStandardOutput result g).
    pose proof (parser_progressCount_le result g) as Hle1.
    pose proof (read_chunks_progressCount_le chunks g1) as Hle2.
    destruct (IH g1 ltac:(fold g1 in Hle1; lia)) as (n & Hst & Hup & Hlow).
    fold g1 in Hle1. unfold read_chunks in Hst, Hup, Hlow, Hle2.
    set (g' := foldl (λ g' result, onReadyReadStandardOutput result g') g1 chunks) in *.
    assert (status g1 = status g +:+ dots (Z.to_nat (progressCount g1 ÷ 3)))
      as Hst1.
    { subst g1. rewrite (token_free_progress result g Hr). done. }
    exists (Z.to_nat (progressCount g1 ÷ 3) + n)%nat.
    assert (Z.to_nat (progressCount g1 ÷ 3) ≤ Z.to_nat (progressCount g' ÷ 3))%nat
      as Hthird.
    { apply Z2Nat.inj_le; [apply Z.quot_pos; lia | apply Z.quot_pos; lia |].
      apply Z.quot_le_mono; lia. }
    split; [by rewrite Hst, Hst1, dots_add, append_assoc |].
    split.
    + cbn [length]. lia.
    + intros _. destruct chunks as [|c chunks].
      * subst g'. cbn [foldl]. lia.
      * pose proof (Hlow ltac:(done)). lia.
Qed.

Lemma status_grows_with_chunks_witness :
  ∃ n : nat,
    status (read_chunks ["###"; ""; "#"] (set_progressCount 0 example_gui))
      = " " +:+ dots n ∧
    (1 ≤ n ≤ 3)%nat.
Proof.
  destruct (status_grows_with_chunks ["###"; ""; "#"]
              (set_progressCount 0 example_gui) ltac:(done)
              ltac:(repeat constructor))
    as (n & Hst & Hup & Hlow).
  exists n. split; [exact Hst |]. split; [by apply Hlow | exact Hup].
Defined.

(** ** What a press on Upload leaves alone *)

(** X12: a press on Upload never changes the file location or the two
    boxes and never drops an event; the progress counter is reset to 0
    exactly when the uploader is started and is otherwise kept, as is
    the process held; and the status after the press is one of
    "Port No Longer Available", "File Not Found" and "Uploading ". *)
Theorem upload_frame (env : Env) (g : GUI) :
  let g' := on_upload_btn_pressed env g in
  fileLocation_lineedit g' = fileLocation_lineedit g ∧
  port_combobox g' = port_combobox g ∧
  baud_combobox g' = baud_combobox g ∧
  (∃ new : list Event, events g' = events g ++ new) ∧
  (events g' = events g ∧ progressCount g' = progressCount g ∧
   process g' = process g ∧
   status g' ∈ ["Port No Longer Available"; "File Not Found"]
   ∨
   events g' ≠ events g ∧ progressCount g' = 0 ∧ status g' = "Uploading ").
Proof.
  cbv zeta.
  destruct (portAvailable (comports env) (port g)) eqn:Hp.
  - destruct (can_open env (fileLocation_lineedit g)) eqn:Hf.
    + rewrite (upload_started env g Hp Hf).
      cbn [fileLocation_lineedit port_combobox baud_combobox events
           progressCount status process].
      split; [done |]. split; [done |]. split; [done |].
      split; [by eexists |]. right. split; [| done].
      intros H. apply (f_equal length) in H.
      rewrite length_app in H. cbn [length] in H. lia.
    + unfold on_upload_btn_pressed. rewrite Hp, Hf. cbn [negb].
      split; [done |]. split; [done |]. split; [done |].
      split; [exists []; by rewrite app_nil_r |]. left.
      split; [done |]. split; [done |]. split; [done |]. right; left.
  - unfold on_upload_btn_pressed. rewrite Hp. cbn [negb].
    split; [done |]. split; [done |]. split; [done |].
    split; [exists []; by rewrite app_nil_r |]. left.
    split; [done |]. split; [done |]. split; [done |]. left.
Qed.
